(** * offlinetube: the API route handlers that relay requests to the backend

    Shallow embedding of the six Next.js route handlers

      - [src/app/api/video/info/route.ts]   (GET, query parameter [url])
      - [src/app/api/search/route.ts]       (GET, query parameters [q], [max_results])
      - the trending handler                (GET)
      - [src/app/api/library/route.ts]      (GET)
      - the library delete handler          (DELETE, path parameter [filename])
      - the stream handler                  (GET, path parameter [filename])

    Conventions of the model.
      - A JavaScript string is modelled by the sequence of its UTF-8 bytes
        (a [string]); the strings the handlers receive (from
        [URLSearchParams] and from the route parameters) are well formed,
        so [encodeURIComponent] never raises on them.
      - An [async] function is a computation that records the events it
        causes (outbound calls, console output) and ends either with a
        value or with a thrown JavaScript exception (a rejected promise).
      - The backend and the JSON decoder of the platform are parameters:
        [fetch_impl] says what an outbound call yields, [JSON_parse] what
        a body decodes to. *)

From Stdlib Require Import String Ascii List ZArith Bool Lia.
From Stdlib Require Import Strings.Byte.
Import ListNotations.
Local Open Scope string_scope.
Local Open Scope Z_scope.

(** ** JavaScript values that the handlers touch *)

#[local] Set Warnings "-register-all".

(** Decoded JSON documents. Numbers are carried as integers: the handlers
    only ever test a number for truthiness. An object keeps its members
    in order; member lookup takes the first binding of a key. *)
Inductive json : Type :=
| JNull
| JBool (b : bool)
| JNum (n : Z)
| JStr (s : string)
| JArr (items : list json)
| JObj (members : list (string * json)).

(** Exceptions, by the constructor of the thrown object. [NetworkError]
    stands for the rejection of [fetch] when no response arrives. *)
Inductive JsError : Type :=
| NetworkError
| SyntaxError
| TypeError
| RangeError.

(** ToBoolean on a decoded JSON value. *)
Definition truthy (v : json) : bool :=
  match v with
  | JNull => false
  | JBool b => b
  | JNum n => negb (n =? 0)
  | JStr s => negb (s =? EmptyString)%string
  | JArr _ => true
  | JObj _ => true
  end.

(** ToBoolean on a [string | null]. *)
Definition truthy_str (v : option string) : bool :=
  match v with
  | None => false
  | Some s => negb (s =? EmptyString)%string
  end.

(** [v || d] for [v : string | null] and a string [d]. *)
Definition or_str (v : option string) (d : string) : string :=
  match v with
  | Some s => if (s =? EmptyString)%string then d else s
  | None => d
  end.

(** The string in a [string | null] after a truthiness test has passed
    (the narrowing that TypeScript does). *)
Definition narrowed (v : option string) : string :=
  match v with
  | Some s => s
  | None => EmptyString
  end.

(** [v || d] for a property value [v] ([None] is [undefined]). *)
Definition or_json (v : option json) (d : json) : json :=
  match v with
  | Some x => if truthy x then x else d
  | None => d
  end.

Fixpoint assoc {A : Type} (k : string) (l : list (string * A)) : option A :=
  match l with
  | [] => None
  | (k', v) :: rest => if (k =? k')%string then Some v else assoc k rest
  end.

(** Property read [v.name] on a decoded JSON value: [null] has no
    properties and the read throws a [TypeError]; on an object it is the
    member, on every other value [undefined] (none of the names read by
    the handlers is a built-in property). *)
Definition get_prop (v : json) (name : string) : JsError + option json :=
  match v with
  | JNull => inl TypeError
  | JObj members => inr (assoc name members)
  | _ => inr None
  end.

(** ** encodeURIComponent *)

Definition is_unreserved (c : ascii) : bool :=
  let n := nat_of_ascii c in
  ((65 <=? n) && (n <=? 90))%nat
  || ((97 <=? n) && (n <=? 122))%nat
  || ((48 <=? n) && (n <=? 57))%nat
  || existsb (Ascii.eqb c) ["-"; "_"; "."; "!"; "~"; "*"; "'"; "("; ")"]%char.

Definition hex_digit (n : nat) : ascii :=
  nth n (list_ascii_of_string "0123456789ABCDEF") "0"%char.

Definition percent_byte (c : ascii) : string :=
  let n := nat_of_ascii c in
  String "%"
    (String (hex_digit (n / 16)) (String (hex_digit (n mod 16)) EmptyString)).

(** Every byte of the UTF-8 form that is not an unreserved mark or an
    ASCII letter or digit becomes [%XX] with upper-case digits. *)
Fixpoint encodeURIComponent (s : string) : string :=
  match s with
  | EmptyString => EmptyString
  | String c rest =>
      if is_unreserved c then String c (encodeURIComponent rest)
      else percent_byte c ++ encodeURIComponent rest
  end.

(** ** URLSearchParams and Headers *)

Definition URLSearchParams : Type := list (string * string).

(** [searchParams.get(name)]: the first value of that name, or [null]. *)
Definition URLSearchParams_get (sp : URLSearchParams) (name : string)
  : option string :=
  assoc name sp.

Definition lower_ascii (c : ascii) : ascii :=
  let n := nat_of_ascii c in
  if ((65 <=? n) && (n <=? 90))%nat then ascii_of_nat (n + 32) else c.

Fixpoint lowercase (s : string) : string :=
  match s with
  | EmptyString => EmptyString
  | String c rest => String (lower_ascii c) (lowercase rest)
  end.

(** A header list; names are kept in lower case, as [Headers] does. *)
Definition Headers : Type := list (string * string).

Definition header_values (h : Headers) (name : string) : list string :=
  map snd (filter (fun nv => (fst nv =? lowercase name)%string) h).

(** [headers.get(name)]: [null] when no header has that name (compared
    without case), else the values joined by a comma and a space. *)
Definition Headers_get (h : Headers) (name : string) : option string :=
  match header_values h name with
  | [] => None
  | v :: vs => Some (String.concat ", " (v :: vs))
  end.

Fixpoint replace_header (n value : string) (l : Headers) (seen : bool)
  : Headers :=
  match l with
  | [] => []
  | (k, v) :: rest =>
      if (k =? n)%string
      then if seen then replace_header n value rest true
           else (k, value) :: replace_header n value rest true
      else (k, v) :: replace_header n value rest seen
  end.

(** [headers.set(name, value)]: the first header of that name takes the
    value and the others go; a new name is appended. *)
Definition Headers_set (h : Headers) (name value : string) : Headers :=
  let n := lowercase name in
  match header_values h name with
  | [] => (h ++ [(n, value)])%list
  | _ :: _ => replace_header n value h false
  end.

(** ** Responses *)

(** What the handlers get from [fetch]. *)
Record BackendResponse : Type := mkBackendResponse {
  status : Z;
  headers : Headers;
  body : list byte
}.

(** [response.ok] *)
Definition ok (r : BackendResponse) : bool :=
  (200 <=? status r) && (status r <=? 299).

(** The body of a response that a handler returns: the JSON text of a
    value ([NextResponse.json]) or a byte stream passed through. *)
Inductive Body : Type :=
| JsonBody (data : json)
| StreamBody (bytes : list byte).

Record Response : Type := mkResponse {
  resp_status : Z;
  resp_headers : Headers;
  resp_body : Body
}.

(** The status codes of responses that carry no body. *)
Definition null_body_status (s : Z) : bool :=
  existsb (Z.eqb s) [101; 103; 204; 205; 304].

(** The check that the platform's [Response] constructor and
    [Response.json] run on their [init] (Fetch standard, "initialize a
    response"): a status outside 200..599 is a [RangeError]; a body
    together with a null-body status is a [TypeError]. *)
Definition initialize_response (st : Z) (has_body : bool) : JsError + unit :=
  if negb ((200 <=? st) && (st <=? 599)) then inl RangeError
  else if has_body && null_body_status st then inl TypeError
  else inr tt.

(** ** Events and the computation monad *)

Inductive Method : Type := GET | DELETE.

Inductive Event : Type :=
| EvFetch (m : Method) (url : string)
| EvLog (label : string) (error : JsError).

(** An asynchronous computation: the events it caused, and how it ended. *)
Definition Async (A : Type) : Type := (list Event * (JsError + A))%type.

Definition ret {A : Type} (a : A) : Async A := ([], inr a).

Definition throw {A : Type} (e : JsError) : Async A := ([], inl e).

Definition lift {A : Type} (r : JsError + A) : Async A := ([], r).

Definition bind {A B : Type} (m : Async A) (k : A -> Async B) : Async B :=
  match m with
  | (t, inl e) => (t, inl e)
  | (t, inr a) => let (t', r) := k a in ((t ++ t')%list, r)
  end.

(** [try { m } catch (error) { h error }], and also [m.catch(h)]. *)
Definition try_catch {A : Type} (m : Async A) (h : JsError -> Async A)
  : Async A :=
  match m with
  | (t, inl e) => let (t', r) := h e in ((t ++ t')%list, r)
  | (t, inr a) => (t, inr a)
  end.

Declare Scope async_scope.
Delimit Scope async_scope with async.
Notation "x <- m ;; k" := (bind m (fun x => k))
  (at level 61, m at next level, right associativity) : async_scope.
Notation "m ;;; k" := (bind m (fun _ => k))
  (at level 61, right associativity) : async_scope.

(** [console.error(label, error)] *)
Definition console_error (label : string) (e : JsError) : Async unit :=
  ([EvLog label e], inr tt).

(** The outbound calls among the events. *)
Definition outbound_calls (t : list Event) : list (Method * string) :=
  flat_map (fun ev => match ev with
                      | EvFetch m u => [(m, u)]
                      | EvLog _ _ => []
                      end) t.

(** The console output among the events. *)
Definition logged (t : list Event) : list (string * JsError) :=
  flat_map (fun ev => match ev with
                      | EvFetch _ _ => []
                      | EvLog l e => [(l, e)]
                      end) t.

(** The double quote character, for the messages that contain it. *)
Definition dquote : string := String (ascii_of_nat 34) EmptyString.

(** The object [{ error: v }]. *)
Definition error_object (v : json) : json := JObj [("error", v)].

(** A response whose body is the JSON text of [data]. *)
Definition json_response (st : Z) (data : json) : Response :=
  mkResponse st [("content-type", "application/json")] (JsonBody data).

(** [NextResponse.json(data, { status })]: the JSON text of [data] with
    a JSON content type, after the platform's check of the status. *)
Definition NextResponse_json (data : json) (st : Z) : Async Response :=
  bind (lift (initialize_response st true))
       (fun _ => ret (json_response st data)).

(** [new Response(stream, { status, headers })] *)
Definition new_Response (bytes : list byte) (st : Z) (h : Headers)
  : Async Response :=
  bind (lift (initialize_response st true))
       (fun _ => ret (mkResponse st h (StreamBody bytes))).

(** ** The route handlers *)

Definition BACKEND_URL : string := "http://localhost:8001".

Inductive Endpoint : Type :=
| VideoInfo | Search | Trending | Library | LibraryDelete | Stream.

(** What the platform hands to a handler: the query parameters of the
    inbound URL and the [filename] route parameter. *)
Record Inbound : Type := mkInbound {
  searchParams : URLSearchParams;
  filename : string
}.

Section Handlers.

(** The backend as seen through [fetch]: the call is rejected with an
    exception, or a response arrives. *)
Variable fetch_impl : Method -> string -> JsError + BackendResponse.

(** The platform's JSON decoder on a body; [None] when the body is not
    a JSON text. *)
Variable JSON_parse : list byte -> option json.

Local Open Scope async_scope.

(** [fetch(url)] and [fetch(url, { method })] *)
Definition fetch (m : Method) (url : string) : Async BackendResponse :=
  ([EvFetch m url], fetch_impl m url).

(** [response.json()]: rejects with a [SyntaxError] on a body that is
    not JSON. *)
Definition response_json (r : BackendResponse) : Async json :=
  match JSON_parse (body r) with
  | Some data => ret data
  | None => throw SyntaxError
  end.

(** [GET] of [src/app/api/video/info/route.ts] *)
Definition info_GET (searchParams : URLSearchParams) : Async Response :=
  let url := URLSearchParams_get searchParams "url" in
  if negb (truthy_str url) then
    NextResponse_json (error_object (JStr "URL parameter is required")) 400
  else
    try_catch
      (response <- fetch GET (BACKEND_URL ++ "/api/video/info?url="
                                ++ encodeURIComponent (narrowed url)) ;;
       if negb (ok response) then
         errorData <- try_catch (response_json response)
                        (fun _ => ret (JObj [("detail", JStr "Unknown error")])) ;;
         detail <- lift (get_prop errorData "detail") ;;
         NextResponse_json
           (error_object (or_json detail (JStr "Failed to get video info")))
           (status response)
       else
         data <- response_json response ;;
         NextResponse_json data 200)
      (fun error =>
         console_error "Video info API error:" error ;;;
         NextResponse_json
           (error_object (JStr "Failed to get video information")) 500).

(** [GET] of [src/app/api/search/route.ts] *)
Definition search_GET (searchParams : URLSearchParams) : Async Response :=
  let q := URLSearchParams_get searchParams "q" in
  let maxResults := or_str (URLSearchParams_get searchParams "max_results") "20" in
  if negb (truthy_str q) then
    NextResponse_json
      (error_object
         (JStr ("Query parameter " ++ dquote ++ "q" ++ dquote ++ " is required")))
      400
  else
    try_catch
      (response <- fetch GET (BACKEND_URL ++ "/api/search?q="
                                ++ encodeURIComponent (narrowed q)
                                ++ "&max_results=" ++ maxResults) ;;
       data <- response_json response ;;
       NextResponse_json data 200)
      (fun error =>
         console_error "Search API error:" error ;;;
         NextResponse_json (error_object (JStr "Failed to search videos")) 500).

(** [GET] of the trending handler *)
Definition trending_GET : Async Response :=
  try_catch
    (response <- fetch GET (BACKEND_URL ++ "/api/trending") ;;
     data <- response_json response ;;
     NextResponse_json data 200)
    (fun error =>
       console_error "Trending API error:" error ;;;
       NextResponse_json
         (error_object (JStr "Failed to get trending videos")) 500).

(** [GET] of [src/app/api/library/route.ts] *)
Definition library_GET : Async Response :=
  try_catch
    (response <- fetch GET (BACKEND_URL ++ "/api/library") ;;
     data <- response_json response ;;
     NextResponse_json data 200)
    (fun error =>
       console_error "Library API error:" error ;;;
       NextResponse_json (error_object (JStr "Failed to get library")) 500).

(** [DELETE] of the library handler with a [filename] route parameter *)
Definition library_DELETE (filename : string) : Async Response :=
  try_catch
    (response <- fetch DELETE (BACKEND_URL ++ "/api/library/"
                                 ++ encodeURIComponent filename) ;;
     data <- response_json response ;;
     NextResponse_json data 200)
    (fun error =>
       console_error "Delete video API error:" error ;;;
       NextResponse_json (error_object (JStr "Failed to delete video")) 500).

(** [GET] of the stream handler with a [filename] route parameter *)
Definition stream_GET (filename : string) : Async Response :=
  try_catch
    (response <- fetch GET (BACKEND_URL ++ "/api/stream/"
                              ++ encodeURIComponent filename) ;;
     if negb (ok response) then
       NextResponse_json (error_object (JStr "Video not found")) 404
     else
       let contentType :=
         or_str (Headers_get (headers response) "content-type") "video/mp4" in
       let contentLength := Headers_get (headers response) "content-length" in
       let headers0 : Headers := [] in
       let headers1 := Headers_set headers0 "Content-Type" contentType in
       let headers2 :=
         if truthy_str contentLength
         then Headers_set headers1 "Content-Length" (narrowed contentLength)
         else headers1 in
       let headers3 := Headers_set headers2 "Accept-Ranges" "bytes" in
       new_Response (body response) 200 headers3)
    (fun error =>
       console_error "Stream API error:" error ;;;
       NextResponse_json (error_object (JStr "Failed to stream video")) 500).

(** *** The six endpoints together *)

(** The file-system router: each endpoint runs its handler. *)
Definition route (e : Endpoint) (rq : Inbound) : Async Response :=
  match e with
  | VideoInfo => info_GET (searchParams rq)
  | Search => search_GET (searchParams rq)
  | Trending => trending_GET
  | Library => library_GET
  | LibraryDelete => library_DELETE (filename rq)
  | Stream => stream_GET (filename rq)
  end.

(** The run of a plain JSON relay in closed form: one call; then the
    decoded body with 200, or the exception logged under [label] and the
    500 response with [message]. The search, trending, library and
    delete handlers are compared with it below. *)
Definition relay_run (m : Method) (url label message : string)
  : Async Response :=
  let failed := inr (json_response 500 (error_object (JStr message))) in
  match fetch_impl m url with
  | inl e => ([EvFetch m url; EvLog label e], failed)
  | inr r =>
      match JSON_parse (body r) with
      | Some data => ([EvFetch m url], inr (json_response 200 data))
      | None => ([EvFetch m url; EvLog label SyntaxError], failed)
      end
  end.

End Handlers.

(** The label under which each handler logs a caught exception. *)
Definition log_label (e : Endpoint) : string :=
  match e with
  | VideoInfo => "Video info API error:"
  | Search => "Search API error:"
  | Trending => "Trending API error:"
  | Library => "Library API error:"
  | LibraryDelete => "Delete video API error:"
  | Stream => "Stream API error:"
  end.

(** The message of each handler's 500 response. *)
Definition generic_message (e : Endpoint) : string :=
  match e with
  | VideoInfo => "Failed to get video information"
  | Search => "Failed to search videos"
  | Trending => "Failed to get trending videos"
  | Library => "Failed to get library"
  | LibraryDelete => "Failed to delete video"
  | Stream => "Failed to stream video"
  end.

(** The 500 response of an endpoint. *)
Definition generic_failure (e : Endpoint) : Response :=
  json_response 500 (error_object (JStr (generic_message e))).


(** The outbound call that an endpoint makes for an inbound request, if
    it makes one: none when a required parameter is missing or empty. *)
Definition outbound_request (e : Endpoint) (rq : Inbound)
  : option (Method * string) :=
  match e with
  | VideoInfo =>
      let url := URLSearchParams_get (searchParams rq) "url" in
      if truthy_str url
      then Some (GET, BACKEND_URL ++ "/api/video/info?url="
                        ++ encodeURIComponent (narrowed url))
      else None
  | Search =>
      let q := URLSearchParams_get (searchParams rq) "q" in
      let maxResults :=
        or_str (URLSearchParams_get (searchParams rq) "max_results") "20" in
      if truthy_str q
      then Some (GET, BACKEND_URL ++ "/api/search?q="
                        ++ encodeURIComponent (narrowed q)
                        ++ "&max_results=" ++ maxResults)
      else None
  | Trending => Some (GET, BACKEND_URL ++ "/api/trending")
  | Library => Some (GET, BACKEND_URL ++ "/api/library")
  | LibraryDelete =>
      Some (DELETE, BACKEND_URL ++ "/api/library/"
                      ++ encodeURIComponent (filename rq))
  | Stream =>
      Some (GET, BACKEND_URL ++ "/api/stream/"
                   ++ encodeURIComponent (filename rq))
  end.

(** The endpoints whose handler is a plain JSON relay. *)
Definition plain_relay (e : Endpoint) : bool :=
  match e with
  | Search | Trending | Library | LibraryDelete => true
  | VideoInfo | Stream => false
  end.


(** The headers that the stream handler puts on a successful response,
    as a function of the backend's response. *)
Definition stream_headers (r : BackendResponse) : Headers :=
  let contentType :=
    or_str (Headers_get (headers r) "content-type") "video/mp4" in
  let contentLength := Headers_get (headers r) "content-length" in
  Headers_set
    (if truthy_str contentLength
     then Headers_set (Headers_set [] "Content-Type" contentType)
            "Content-Length" (narrowed contentLength)
     else Headers_set [] "Content-Type" contentType)
    "Accept-Ranges" "bytes".


(** The characters that separate the parts of a URL or of a query
    string: a value that holds none of them stays inside its place. *)
Definition url_delimiter (c : ascii) : bool :=
  existsb (Ascii.eqb c) ["/"; "?"; "#"; "&"; "="; "+"; " "]%char.

(** ** Test doubles: a mock backend and a table-driven decoder *)

Module Mock.

(** A backend that answers every call with the response [r]. *)
Definition always (r : BackendResponse)
  : Method -> string -> JsError + BackendResponse :=
  fun _ _ => inr r.

(** A backend that cannot be reached: every call is rejected with [e]. *)
Definition down (e : JsError)
  : Method -> string -> JsError + BackendResponse :=
  fun _ _ => inl e.

(** A decoder that knows the bodies of a table and rejects the others. *)
Definition decoder (table : list (string * json)) : list byte -> option json :=
  fun b => assoc (string_of_list_byte b) table.

Definition utf8 (s : string) : list byte := list_byte_of_string s.

(** The text [{"detail":"invalid url"}] *)
Definition invalid_url_text : string :=
  "{" ++ dquote ++ "detail" ++ dquote ++ ":"
      ++ dquote ++ "invalid url" ++ dquote ++ "}".

Definition invalid_url_json : json := JObj [("detail", JStr "invalid url")].

(** The text of the object whose only member is [detail], the empty
    string. *)
Definition empty_detail_text : string :=
  "{" ++ dquote ++ "detail" ++ dquote ++ ":" ++ dquote ++ dquote ++ "}".

(** The decoder used in the examples: it decodes the JSON texts below as
    the platform does, and takes every other body for malformed. *)
Definition parse : list byte -> option json :=
  decoder [ (invalid_url_text, invalid_url_json);
            (empty_detail_text, JObj [("detail", JStr EmptyString)]);
            ("{}", JObj []);
            ("null", JNull);
            ("[]", JArr []) ].

(** A backend response without headers. *)
Definition reply (st : Z) (text : string) : BackendResponse :=
  mkBackendResponse st [] (utf8 text).

End Mock.

(** * Properties of the handlers *)

(** ** The platform's status check *)

Lemma initialize_response_accepts (st : Z) :
  200 <= st <= 599 -> null_body_status st = false ->
  initialize_response st true = inr tt.
Proof.
  intros [Hlo Hhi] Hnull. unfold initialize_response.
  apply Z.leb_le in Hlo. apply Z.leb_le in Hhi.
  rewrite Hlo, Hhi, Hnull. reflexivity.
Qed.

(** Among the statuses of a response that is not [ok], the check refuses
    those outside 200..599 and the status 304. *)
Lemma not_ok_status_accepted (r : BackendResponse) :
  ok r = false -> 200 <= status r <= 599 -> status r <> 304 ->
  initialize_response (status r) true = inr tt.
Proof.
  unfold ok. intros Hok Hrange Hne.
  apply initialize_response_accepts; [exact Hrange|].
  apply andb_false_iff in Hok.
  unfold null_body_status. simpl.
  repeat match goal with
         | |- context [?a =? ?b] =>
             destruct (Z.eqb_spec a b); [exfalso; subst; simpl in *|]
         end;
    try reflexivity;
    try (destruct Hok as [Hok|Hok]; discriminate Hok);
    try lia.
Qed.

Lemma NextResponse_json_accepted (data : json) (st : Z) :
  initialize_response st true = inr tt ->
  NextResponse_json data st = ([], inr (json_response st data)).
Proof.
  intros H. unfold NextResponse_json, lift, bind, ret. rewrite H. reflexivity.
Qed.

Lemma truthy_str_Some (s : string) :
  s <> EmptyString -> truthy_str (Some s) = true.
Proof.
  intros H. simpl.
  destruct (String.eqb_spec s EmptyString); [contradiction|reflexivity].
Qed.

Ltac unfold_handlers :=
  unfold route, info_GET, search_GET, trending_GET, library_GET,
    library_DELETE, stream_GET, fetch, response_json, console_error,
    bind, try_catch, lift, ret, throw.

Section HandlerFacts.

Variable fetch_impl : Method -> string -> JsError + BackendResponse.
Variable JSON_parse : list byte -> option json.

(** ** Validation of the required parameters *)

(** C1. The info handler without its [url] query parameter, and the
    search handler without its [q] query parameter, answer 400 with a
    JSON body [{ error: message }] that names the missing parameter, and
    the run has no event at all: no outbound call to the backend is made
    (and nothing is logged). *)
Theorem required_parameter_absent (sp : URLSearchParams) :
  (URLSearchParams_get sp "url" = None ->
   info_GET fetch_impl JSON_parse sp =
     ([], inr (json_response 400
                 (error_object (JStr "URL parameter is required")))))
  /\
  (URLSearchParams_get sp "q" = None ->
   search_GET fetch_impl JSON_parse sp =
     ([], inr (json_response 400
                 (error_object
                    (JStr ("Query parameter " ++ dquote ++ "q" ++ dquote
                             ++ " is required")))))).
Proof.
  split; intros H.
  - unfold info_GET. rewrite H. reflexivity.
  - unfold search_GET. rewrite H. reflexivity.
Qed.

(** ** The stream handler on a backend failure *)

(** C3. When the backend answers the stream handler's call with a status
    outside 200..299, whatever that status is, the handler returns 404
    with the JSON body [{ error: "Video not found" }]; the run consists
    of the one outbound call. *)
Theorem stream_backend_failure (filename : string) (r : BackendResponse) :
  fetch_impl GET (BACKEND_URL ++ "/api/stream/" ++ encodeURIComponent filename)
    = inr r ->
  ok r = false ->
  stream_GET fetch_impl filename =
    ([EvFetch GET (BACKEND_URL ++ "/api/stream/" ++ encodeURIComponent filename)],
     inr (json_response 404 (error_object (JStr "Video not found")))).
Proof.
  intros Hfetch Hok. unfold_handlers. rewrite Hfetch, Hok. reflexivity.
Qed.

(** ** The search handler *)

(** The search handler once [q] is there: a plain relay to the search
    URL, whose [max_results] value is the inbound one as it came, or 20. *)
Lemma search_GET_run (sp : URLSearchParams) (q : string) :
  URLSearchParams_get sp "q" = Some q -> q <> EmptyString ->
  search_GET fetch_impl JSON_parse sp =
    relay_run fetch_impl JSON_parse GET
      (BACKEND_URL ++ "/api/search?q=" ++ encodeURIComponent q
         ++ "&max_results="
         ++ or_str (URLSearchParams_get sp "max_results") "20")
      "Search API error:" "Failed to search videos".
Proof.
  intros Hq Hne. unfold search_GET, relay_run.
  rewrite Hq, (truthy_str_Some q Hne). cbn [negb narrowed].
  unfold_handlers.
  destruct (fetch_impl GET _) as [e|r]; [reflexivity|].
  destruct (JSON_parse (body r)); reflexivity.
Qed.

(** C8. With [q=test] and [max_results=5] the search handler makes
    exactly one outbound call, a GET of
    [/api/search?q=test&max_results=5] on the backend origin, and when
    the backend's body decodes as the JSON value [data], the handler
    returns [data] itself as its JSON body, with status 200. *)
Theorem search_test_5 (sp : URLSearchParams) (r : BackendResponse) (data : json) :
  URLSearchParams_get sp "q" = Some "test" ->
  URLSearchParams_get sp "max_results" = Some "5" ->
  fetch_impl GET "http://localhost:8001/api/search?q=test&max_results=5" = inr r ->
  JSON_parse (body r) = Some data ->
  search_GET fetch_impl JSON_parse sp =
    ([EvFetch GET "http://localhost:8001/api/search?q=test&max_results=5"],
     inr (json_response 200 data)).
Proof.
  intros Hq Hmax Hfetch Hparse.
  rewrite (search_GET_run sp "test" Hq) by discriminate.
  rewrite Hmax.
  change (BACKEND_URL ++ "/api/search?q=" ++ encodeURIComponent "test"
            ++ "&max_results=" ++ or_str (Some "5") "20")
    with "http://localhost:8001/api/search?q=test&max_results=5".
  unfold relay_run. rewrite Hfetch, Hparse. reflexivity.
Qed.

(** C9. When the inbound request has a non-empty [q] and has no
    [max_results] parameter, or has it with the empty string as value,
    the one outbound call of the search handler goes to the search URL
    with [max_results=20]. *)
Theorem search_default_max_results (sp : URLSearchParams) (q : string) :
  URLSearchParams_get sp "q" = Some q -> q <> EmptyString ->
  URLSearchParams_get sp "max_results" = None
  \/ URLSearchParams_get sp "max_results" = Some EmptyString ->
  outbound_calls (fst (search_GET fetch_impl JSON_parse sp)) =
    [(GET, BACKEND_URL ++ "/api/search?q=" ++ encodeURIComponent q
             ++ "&max_results=20")].
Proof.
  intros Hq Hne Hmax.
  rewrite (search_GET_run sp q Hq Hne).
  assert (Hdef : or_str (URLSearchParams_get sp "max_results") "20" = "20")
    by (destruct Hmax as [-> | ->]; reflexivity).
  rewrite Hdef. unfold relay_run.
  destruct (fetch_impl GET _) as [e|r]; [reflexivity|].
  destruct (JSON_parse (body r)); reflexivity.
Qed.

(** ** The plain relays *)

Lemma trending_GET_run :
  trending_GET fetch_impl JSON_parse =
    relay_run fetch_impl JSON_parse GET (BACKEND_URL ++ "/api/trending")
      "Trending API error:" "Failed to get trending videos".
Proof.
  unfold trending_GET, relay_run. unfold_handlers.
  destruct (fetch_impl GET _) as [e|r]; [reflexivity|].
  destruct (JSON_parse (body r)); reflexivity.
Qed.

Lemma library_GET_run :
  library_GET fetch_impl JSON_parse =
    relay_run fetch_impl JSON_parse GET (BACKEND_URL ++ "/api/library")
      "Library API error:" "Failed to get library".
Proof.
  unfold library_GET, relay_run. unfold_handlers.
  destruct (fetch_impl GET _) as [e|r]; [reflexivity|].
  destruct (JSON_parse (body r)); reflexivity.
Qed.

Lemma library_DELETE_run (filename : string) :
  library_DELETE fetch_impl JSON_parse filename =
    relay_run fetch_impl JSON_parse DELETE
      (BACKEND_URL ++ "/api/library/" ++ encodeURIComponent filename)
      "Delete video API error:" "Failed to delete video".
Proof.
  unfold library_DELETE, relay_run. unfold_handlers.
  destruct (fetch_impl DELETE _) as [e|r]; [reflexivity|].
  destruct (JSON_parse (body r)); reflexivity.
Qed.

(** ** The info handler *)

(** The info handler once [url] is there, in closed form. *)
Lemma info_GET_run (sp : URLSearchParams) (u : string) :
  URLSearchParams_get sp "url" = Some u -> u <> EmptyString ->
  let target := BACKEND_URL ++ "/api/video/info?url=" ++ encodeURIComponent u in
  let failed (e : JsError) : Async Response :=
    ([EvFetch GET target; EvLog "Video info API error:" e],
     inr (generic_failure VideoInfo)) in
  info_GET fetch_impl JSON_parse sp =
    match fetch_impl GET target with
    | inl e => failed e
    | inr r =>
        if ok r then
          match JSON_parse (body r) with
          | Some data => ([EvFetch GET target], inr (json_response 200 data))
          | None => failed SyntaxError
          end
        else
          let errorData :=
            match JSON_parse (body r) with
            | Some j => j
            | None => JObj [("detail", JStr "Unknown error")]
            end in
          match get_prop errorData "detail" with
          | inl e => failed e
          | inr detail =>
              match initialize_response (status r) true with
              | inl e => failed e
              | inr _ =>
                  ([EvFetch GET target],
                   inr (json_response (status r)
                          (error_object
                             (or_json detail (JStr "Failed to get video info")))))
              end
          end
    end.
Proof.
  intros Hu Hne target failed. unfold info_GET.
  rewrite Hu, (truthy_str_Some u Hne). cbn [negb narrowed].
  unfold_handlers. fold target.
  destruct (fetch_impl GET target) as [e|r]; [reflexivity|].
  destruct (ok r); cbn [negb].
  - destruct (JSON_parse (body r)); reflexivity.
  - unfold NextResponse_json, lift, bind, ret.
    destruct (JSON_parse (body r)) as [j|]; cbn [app].
    + destruct (get_prop j "detail") as [e|detail]; [reflexivity|].
      destruct (initialize_response (status r) true); reflexivity.
    + cbn [get_prop assoc String.eqb Ascii.eqb Bool.eqb].
      destruct (initialize_response (status r) true); reflexivity.
Qed.

(** C2, as the code has it. When the backend answers the info handler's
    call with a status that is not 2xx and that the platform accepts on
    a response with a body (200..599 and not 304), the handler returns
    that status, with [{ error: d }] when the body decodes as JSON with a
    member [detail] that is a non-empty string [d], and with
    [{ error: "Unknown error" }] when the body is not JSON. *)
Theorem info_backend_error (sp : URLSearchParams) (u : string)
    (r : BackendResponse) :
  URLSearchParams_get sp "url" = Some u -> u <> EmptyString ->
  fetch_impl GET (BACKEND_URL ++ "/api/video/info?url=" ++ encodeURIComponent u)
    = inr r ->
  ok r = false -> 200 <= status r <= 599 -> status r <> 304 ->
  (forall (j : json) (d : string),
      JSON_parse (body r) = Some j ->
      get_prop j "detail" = inr (Some (JStr d)) -> d <> EmptyString ->
      info_GET fetch_impl JSON_parse sp =
        ([EvFetch GET (BACKEND_URL ++ "/api/video/info?url="
                         ++ encodeURIComponent u)],
         inr (json_response (status r) (error_object (JStr d)))))
  /\
  (JSON_parse (body r) = None ->
   info_GET fetch_impl JSON_parse sp =
     ([EvFetch GET (BACKEND_URL ++ "/api/video/info?url="
                      ++ encodeURIComponent u)],
      inr (json_response (status r) (error_object (JStr "Unknown error"))))).
Proof.
  intros Hu Hne Hfetch Hok Hrange H304.
  pose proof (not_ok_status_accepted r Hok Hrange H304) as Hinit.
  rewrite (info_GET_run sp u Hu Hne). cbv zeta.
  rewrite Hfetch, Hok, Hinit.
  split.
  - intros j d Hparse Hdetail Hd. rewrite Hparse, Hdetail.
    cbn [or_json truthy].
    rewrite (proj2 (String.eqb_neq d EmptyString) Hd). reflexivity.
  - intros Hparse. rewrite Hparse. reflexivity.
Qed.

(** C10, as the code has it. When the backend answers the info handler's
    call with a status that is not 2xx and that the platform accepts on
    a response with a body (200..599 and not 304), and the body decodes
    as a JSON value other than [null] that has no member [detail] or a
    falsy one, the handler returns that status with
    [{ error: "Failed to get video info" }], a message that is neither
    the decoded detail nor "Unknown error". *)
Theorem info_fallback_message (sp : URLSearchParams) (u : string)
    (r : BackendResponse) (j : json) :
  URLSearchParams_get sp "url" = Some u -> u <> EmptyString ->
  fetch_impl GET (BACKEND_URL ++ "/api/video/info?url=" ++ encodeURIComponent u)
    = inr r ->
  ok r = false -> 200 <= status r <= 599 -> status r <> 304 ->
  JSON_parse (body r) = Some j -> j <> JNull ->
  (forall v, get_prop j "detail" = inr (Some v) -> truthy v = false) ->
  info_GET fetch_impl JSON_parse sp =
    ([EvFetch GET (BACKEND_URL ++ "/api/video/info?url=" ++ encodeURIComponent u)],
     inr (json_response (status r)
            (error_object (JStr "Failed to get video info"))))
  /\ JStr "Failed to get video info" <> JStr "Unknown error".
Proof.
  intros Hu Hne Hfetch Hok Hrange H304 Hparse Hnull Hfalsy.
  pose proof (not_ok_status_accepted r Hok Hrange H304) as Hinit.
  split; [|discriminate].
  rewrite (info_GET_run sp u Hu Hne). cbv zeta.
  rewrite Hfetch, Hok, Hinit, Hparse.
  destruct (get_prop j "detail") as [e|[v|]] eqn:Hprop.
  - destruct j; try discriminate Hprop. contradiction.
  - cbn [or_json]. rewrite (Hfalsy v eq_refl). reflexivity.
  - reflexivity.
Qed.

(** ** The stream handler *)

(** The stream handler in closed form. *)
Lemma stream_GET_run (filename : string) :
  let target := BACKEND_URL ++ "/api/stream/" ++ encodeURIComponent filename in
  stream_GET fetch_impl filename =
    match fetch_impl GET target with
    | inl e => ([EvFetch GET target; EvLog "Stream API error:" e],
                inr (generic_failure Stream))
    | inr r =>
        if ok r then
          ([EvFetch GET target],
           inr (mkResponse 200 (stream_headers r) (StreamBody (body r))))
        else
          ([EvFetch GET target],
           inr (json_response 404 (error_object (JStr "Video not found"))))
    end.
Proof.
  intros target. unfold_handlers. fold target.
  destruct (fetch_impl GET target) as [e|r]; [reflexivity|].
  destruct (ok r); reflexivity.
Qed.

(** C6, as the code has it. When the backend answers the stream
    handler's call with a 2xx status, the handler returns status 200;
    its Content-Type is the backend's content-type header when that is
    present and not empty, and [video/mp4] when it is absent or empty;
    its Content-Length is the backend's content-length header when that
    is present and not empty, and there is none when it is absent or
    empty; Accept-Ranges is [bytes]; the body is the backend's body. *)
Theorem stream_success (filename : string) (r : BackendResponse) :
  fetch_impl GET (BACKEND_URL ++ "/api/stream/" ++ encodeURIComponent filename)
    = inr r ->
  ok r = true ->
  exists resp : Response,
    stream_GET fetch_impl filename =
      ([EvFetch GET (BACKEND_URL ++ "/api/stream/"
                       ++ encodeURIComponent filename)],
       inr resp)
    /\ resp_status resp = 200
    /\ (forall v, Headers_get (headers r) "content-type" = Some v -> v <> EmptyString ->
                  Headers_get (resp_headers resp) "Content-Type" = Some v)
    /\ (Headers_get (headers r) "content-type" = None
        \/ Headers_get (headers r) "content-type" = Some EmptyString ->
        Headers_get (resp_headers resp) "Content-Type" = Some "video/mp4")
    /\ (forall v, Headers_get (headers r) "content-length" = Some v -> v <> EmptyString ->
                  Headers_get (resp_headers resp) "Content-Length" = Some v)
    /\ (Headers_get (headers r) "content-length" = None
        \/ Headers_get (headers r) "content-length" = Some EmptyString ->
        Headers_get (resp_headers resp) "Content-Length" = None)
    /\ Headers_get (resp_headers resp) "Accept-Ranges" = Some "bytes"
    /\ resp_body resp = StreamBody (body r).
Proof.
  intros Hfetch Hok.
  pose proof (stream_GET_run filename) as Hrun. cbv zeta in Hrun.
  rewrite Hrun, Hfetch, Hok.
  eexists. split; [reflexivity|]. cbn [resp_status resp_headers resp_body].
  unfold stream_headers.
  split; [reflexivity|].
  destruct (Headers_get (headers r) "content-length") as [len|] eqn:Hlen;
    [destruct (String.eqb_spec len EmptyString) as [->|Hlen0]|];
    cbn [truthy_str narrowed];
    try rewrite (proj2 (String.eqb_neq len EmptyString) Hlen0);
    cbn [negb String.eqb];
    (destruct (Headers_get (headers r) "content-type") as [ct|] eqn:Hct;
     [destruct (String.eqb_spec ct EmptyString) as [->|Hct0]|];
     cbn [or_str String.eqb];
     try rewrite (proj2 (String.eqb_neq ct EmptyString) Hct0));
    repeat split;
    try reflexivity;
    try (intros v Hv Hne; inversion Hv; subst; try contradiction; reflexivity);
    try (intros [Habs|Habs]; inversion Habs; subst;
         try contradiction; reflexivity).
Qed.

(** ** All endpoints *)

Lemma truthy_str_inv (v : option string) :
  truthy_str v = true -> exists s, v = Some s /\ s <> EmptyString.
Proof.
  destruct v as [s|]; [|discriminate]. simpl.
  destruct (String.eqb_spec s EmptyString); [discriminate|]. intros _. eauto.
Qed.

(** Without its required parameter a handler answers 400 and causes no
    event. *)
Lemma route_rejected (e : Endpoint) (rq : Inbound) :
  outbound_request e rq = None ->
  exists message,
    route fetch_impl JSON_parse e rq =
      ([], inr (json_response 400 (error_object (JStr message)))).
Proof.
  destruct e; cbn [outbound_request route]; try discriminate.
  - unfold info_GET.
    destruct (truthy_str (URLSearchParams_get (searchParams rq) "url"));
      [discriminate|]. intros _. eexists. reflexivity.
  - unfold search_GET.
    destruct (truthy_str (URLSearchParams_get (searchParams rq) "q"));
      [discriminate|]. intros _. eexists. reflexivity.
Qed.

(** The plain relays in closed form. *)
Lemma route_plain_relay (e : Endpoint) (rq : Inbound) (m : Method) (u : string) :
  plain_relay e = true ->
  outbound_request e rq = Some (m, u) ->
  route fetch_impl JSON_parse e rq =
    relay_run fetch_impl JSON_parse m u (log_label e) (generic_message e).
Proof.
  destruct e; try discriminate; intros _; cbn [outbound_request route].
  - destruct (truthy_str (URLSearchParams_get (searchParams rq) "q")) eqn:Hq;
      [|discriminate].
    destruct (truthy_str_inv _ Hq) as (q & Hget & Hne).
    intros Hreq. injection Hreq as <- <-.
    rewrite (search_GET_run (searchParams rq) q Hget Hne), Hget. reflexivity.
  - intros Hreq. injection Hreq as <- <-. apply trending_GET_run.
  - intros Hreq. injection Hreq as <- <-. apply library_GET_run.
  - intros Hreq. injection Hreq as <- <-. apply library_DELETE_run.
Qed.

(** The info handler in closed form, from the outbound call it makes. *)
Lemma route_info (rq : Inbound) (m : Method) (u : string) :
  outbound_request VideoInfo rq = Some (m, u) ->
  let failed (e : JsError) : Async Response :=
    ([EvFetch m u; EvLog "Video info API error:" e],
     inr (generic_failure VideoInfo)) in
  route fetch_impl JSON_parse VideoInfo rq =
    match fetch_impl m u with
    | inl e => failed e
    | inr r =>
        if ok r then
          match JSON_parse (body r) with
          | Some data => ([EvFetch m u], inr (json_response 200 data))
          | None => failed SyntaxError
          end
        else
          let errorData :=
            match JSON_parse (body r) with
            | Some j => j
            | None => JObj [("detail", JStr "Unknown error")]
            end in
          match get_prop errorData "detail" with
          | inl e => failed e
          | inr detail =>
              match initialize_response (status r) true with
              | inl e => failed e
              | inr _ =>
                  ([EvFetch m u],
                   inr (json_response (status r)
                          (error_object
                             (or_json detail (JStr "Failed to get video info")))))
              end
          end
    end.
Proof.
  cbn [outbound_request route].
  destruct (truthy_str (URLSearchParams_get (searchParams rq) "url")) eqn:Hu;
    [|discriminate].
  destruct (truthy_str_inv _ Hu) as (url & Hget & Hne).
  intros Hreq. injection Hreq as <- <-.
  rewrite (info_GET_run (searchParams rq) url Hget Hne), Hget. reflexivity.
Qed.

(** The stream handler in closed form, from the outbound call it makes. *)
Lemma route_stream (rq : Inbound) (m : Method) (u : string) :
  outbound_request Stream rq = Some (m, u) ->
  route fetch_impl JSON_parse Stream rq =
    match fetch_impl m u with
    | inl e => ([EvFetch m u; EvLog "Stream API error:" e],
                inr (generic_failure Stream))
    | inr r =>
        if ok r then
          ([EvFetch m u],
           inr (mkResponse 200 (stream_headers r) (StreamBody (body r))))
        else
          ([EvFetch m u],
           inr (json_response 404 (error_object (JStr "Video not found"))))
    end.
Proof.
  cbn [outbound_request route]. intros Hreq. injection Hreq as <- <-.
  apply stream_GET_run.
Qed.

(** A handler makes at most one outbound call, the one of
    [outbound_request]. *)
Lemma route_calls (e : Endpoint) (rq : Inbound) :
  outbound_calls (fst (route fetch_impl JSON_parse e rq)) =
    match outbound_request e rq with
    | Some call => [call]
    | None => []
    end.
Proof.
  destruct (outbound_request e rq) as [[m u]|] eqn:Hreq.
  - destruct (plain_relay e) eqn:Hplain.
    + rewrite (route_plain_relay e rq m u Hplain Hreq). unfold relay_run.
      destruct (fetch_impl m u) as [err|r]; [reflexivity|].
      destruct (JSON_parse (body r)); reflexivity.
    + destruct e; try discriminate Hplain.
      * rewrite (route_info rq m u Hreq). cbv zeta.
        destruct (fetch_impl m u) as [err|r]; [reflexivity|].
        destruct (ok r).
        -- destruct (JSON_parse (body r)); reflexivity.
        -- destruct (get_prop _ "detail"); [reflexivity|].
           destruct (initialize_response (status r) true); reflexivity.
      * rewrite (route_stream rq m u Hreq).
        destruct (fetch_impl m u) as [err|r]; [reflexivity|].
        destruct (ok r); reflexivity.
  - destruct (route_rejected e rq Hreq) as [message ->]. reflexivity.
Qed.

(** An exception of the outbound call is logged and becomes the 500. *)
Lemma route_call_failed (e : Endpoint) (rq : Inbound) (m : Method)
    (u : string) (err : JsError) :
  outbound_request e rq = Some (m, u) ->
  fetch_impl m u = inl err ->
  route fetch_impl JSON_parse e rq =
    ([EvFetch m u; EvLog (log_label e) err], inr (generic_failure e)).
Proof.
  intros Hreq Hfetch.
  destruct (plain_relay e) eqn:Hplain.
  - rewrite (route_plain_relay e rq m u Hplain Hreq). unfold relay_run.
    rewrite Hfetch. reflexivity.
  - destruct e; try discriminate Hplain.
    + rewrite (route_info rq m u Hreq). cbv zeta. rewrite Hfetch. reflexivity.
    + rewrite (route_stream rq m u Hreq). rewrite Hfetch.
      reflexivity.
Qed.

(** No handler lets an exception escape. *)
Lemma route_returns (e : Endpoint) (rq : Inbound) :
  exists resp : Response, snd (route fetch_impl JSON_parse e rq) = inr resp.
Proof.
  destruct (outbound_request e rq) as [[m u]|] eqn:Hreq.
  - destruct (plain_relay e) eqn:Hplain.
    + rewrite (route_plain_relay e rq m u Hplain Hreq). unfold relay_run.
      destruct (fetch_impl m u) as [err|r]; [eexists; reflexivity|].
      destruct (JSON_parse (body r)); eexists; reflexivity.
    + destruct e; try discriminate Hplain.
      * rewrite (route_info rq m u Hreq). cbv zeta.
        destruct (fetch_impl m u) as [err|r]; [eexists; reflexivity|].
        destruct (ok r).
        -- destruct (JSON_parse (body r)); eexists; reflexivity.
        -- destruct (get_prop _ "detail"); [eexists; reflexivity|].
           destruct (initialize_response (status r) true);
             eexists; reflexivity.
      * rewrite (route_stream rq m u Hreq).
        destruct (fetch_impl m u) as [err|r]; [eexists; reflexivity|].
        destruct (ok r); eexists; reflexivity.
  - destruct (route_rejected e rq Hreq) as [message ->].
    eexists; reflexivity.
Qed.

(** A body that does not decode, where the handler decodes it inside its
    [try] block, is logged and becomes the 500. *)
Lemma route_decode_failed (e : Endpoint) (rq : Inbound) (m : Method)
    (u : string) (r : BackendResponse) :
  outbound_request e rq = Some (m, u) ->
  fetch_impl m u = inr r ->
  JSON_parse (body r) = None ->
  plain_relay e = true \/ (e = VideoInfo /\ ok r = true) ->
  route fetch_impl JSON_parse e rq =
    ([EvFetch m u; EvLog (log_label e) SyntaxError], inr (generic_failure e)).
Proof.
  intros Hreq Hfetch Hparse [Hplain|[-> Hok]].
  - rewrite (route_plain_relay e rq m u Hplain Hreq). unfold relay_run.
    rewrite Hfetch, Hparse. reflexivity.
  - rewrite (route_info rq m u Hreq). cbv zeta.
    rewrite Hfetch, Hok, Hparse. reflexivity.
Qed.

Lemma route_calls_inv (e : Endpoint) (rq : Inbound) (m : Method) (u : string) :
  outbound_calls (fst (route fetch_impl JSON_parse e rq)) = [(m, u)] ->
  outbound_request e rq = Some (m, u).
Proof.
  rewrite route_calls.
  destruct (outbound_request e rq) as [call|]; [|discriminate].
  intros H. injection H as ->. reflexivity.
Qed.

(** C7, as the code has it. For every endpoint: when the handler's
    outbound call throws, the exception is caught, logged under the
    endpoint's label and answered with 500 and [{ error: m }], [m] the
    endpoint's fixed message; the same holds when decoding the backend's
    body throws in the search, trending, library and delete handlers and
    in the success branch of the info handler (the info handler's branch
    for a backend failure replaces a decoding error by a fallback
    document instead, and the stream handler decodes nothing); and in
    every run the handler returns a response: no exception escapes. *)
Theorem exceptions_become_500 (e : Endpoint) (rq : Inbound) :
  (forall (m : Method) (u : string) (err : JsError),
      outbound_calls (fst (route fetch_impl JSON_parse e rq)) = [(m, u)] ->
      fetch_impl m u = inl err ->
      route fetch_impl JSON_parse e rq =
        ([EvFetch m u; EvLog (log_label e) err], inr (generic_failure e)))
  /\
  (forall (m : Method) (u : string) (r : BackendResponse),
      outbound_calls (fst (route fetch_impl JSON_parse e rq)) = [(m, u)] ->
      fetch_impl m u = inr r ->
      JSON_parse (body r) = None ->
      plain_relay e = true \/ (e = VideoInfo /\ ok r = true) ->
      route fetch_impl JSON_parse e rq =
        ([EvFetch m u; EvLog (log_label e) SyntaxError],
         inr (generic_failure e)))
  /\
  (exists resp : Response,
      snd (route fetch_impl JSON_parse e rq) = inr resp).
Proof.
  split; [|split].
  - intros m u err Hcalls Hfetch.
    apply route_call_failed; [apply route_calls_inv|]; assumption.
  - intros m u r Hcalls Hfetch Hparse Hwhere.
    apply route_decode_failed with (r := r);
      [apply route_calls_inv| | |]; assumption.
  - apply route_returns.
Qed.

(** C4, as the code has it. When the backend answers a handler's call
    with a status outside 200..299: the stream handler returns the fixed
    404; the info handler returns the backend's status with the message
    it could extract, provided the platform accepts that status on a
    response with a body (200..599 and not 304) and the body did not
    decode to [null]; the search, trending, library and delete handlers
    do not look at the status: a body that decodes as JSON is returned
    with status 200, and one that does not becomes the generic 500. *)
Theorem backend_failure_propagation (e : Endpoint) (rq : Inbound)
    (m : Method) (u : string) (r : BackendResponse) :
  outbound_calls (fst (route fetch_impl JSON_parse e rq)) = [(m, u)] ->
  fetch_impl m u = inr r ->
  ok r = false ->
  match e with
  | Stream =>
      route fetch_impl JSON_parse e rq =
        ([EvFetch m u],
         inr (json_response 404 (error_object (JStr "Video not found"))))
  | VideoInfo =>
      200 <= status r <= 599 -> status r <> 304 ->
      JSON_parse (body r) <> Some JNull ->
      exists message : json,
        route fetch_impl JSON_parse e rq =
          ([EvFetch m u],
           inr (json_response (status r) (error_object message)))
        /\ (JSON_parse (body r) = None -> message = JStr "Unknown error")
        /\ (forall j detail,
               JSON_parse (body r) = Some j ->
               get_prop j "detail" = inr detail ->
               message = or_json detail (JStr "Failed to get video info"))
  | Search | Trending | Library | LibraryDelete =>
      (forall data : json,
          JSON_parse (body r) = Some data ->
          route fetch_impl JSON_parse e rq =
            ([EvFetch m u], inr (json_response 200 data)))
      /\
      (JSON_parse (body r) = None ->
       route fetch_impl JSON_parse e rq =
         ([EvFetch m u; EvLog (log_label e) SyntaxError],
          inr (generic_failure e)))
  end.
Proof.
  intros Hcalls Hfetch Hok. apply route_calls_inv in Hcalls.
  assert (Hrelay : plain_relay e = true ->
            (forall data : json,
                JSON_parse (body r) = Some data ->
                route fetch_impl JSON_parse e rq =
                  ([EvFetch m u], inr (json_response 200 data)))
            /\
            (JSON_parse (body r) = None ->
             route fetch_impl JSON_parse e rq =
               ([EvFetch m u; EvLog (log_label e) SyntaxError],
                inr (generic_failure e)))).
  { intros Hplain. rewrite (route_plain_relay e rq m u Hplain Hcalls).
    unfold relay_run. rewrite Hfetch.
    split; [intros data Hparse|intros Hparse]; rewrite Hparse; reflexivity. }
  destruct e; try (apply Hrelay; reflexivity).
  - intros Hrange H304 Hnull.
    pose proof (not_ok_status_accepted r Hok Hrange H304) as Hinit.
    rewrite (route_info rq m u Hcalls). cbv zeta. rewrite Hfetch, Hok, Hinit.
    destruct (JSON_parse (body r)) as [j|].
    + destruct (get_prop j "detail") as [err|detail] eqn:Hprop.
      * destruct j; try discriminate Hprop. contradiction.
      * eexists. split; [reflexivity|]. split; [discriminate|].
        intros j' detail' Hj' Hdetail'. injection Hj' as <-.
        rewrite Hprop in Hdetail'. injection Hdetail' as <-. reflexivity.
    + eexists. split; [reflexivity|]. split; [reflexivity|]. discriminate.
  - rewrite (route_stream rq m u Hcalls), Hfetch, Hok. reflexivity.
Qed.

End HandlerFacts.

(** * Concrete runs against the mock backend *)

(** ** The examples of the specification *)

Example info_422_invalid_url :
  info_GET (Mock.always (Mock.reply 422 Mock.invalid_url_text)) Mock.parse
    [("url", "https://example.com/watch?v=1")]
  = ([EvFetch GET
        "http://localhost:8001/api/video/info?url=https%3A%2F%2Fexample.com%2Fwatch%3Fv%3D1"],
     inr (json_response 422 (error_object (JStr "invalid url")))).
Proof. vm_compute. reflexivity. Qed.

Example info_500_not_json :
  info_GET (Mock.always (Mock.reply 500 "<html>Internal Server Error</html>"))
    Mock.parse [("url", "https://example.com/watch?v=1")]
  = ([EvFetch GET
        "http://localhost:8001/api/video/info?url=https%3A%2F%2Fexample.com%2Fwatch%3Fv%3D1"],
     inr (json_response 500 (error_object (JStr "Unknown error")))).
Proof. vm_compute. reflexivity. Qed.

Example stream_webm_1024 :
  stream_GET
    (Mock.always
       (mkBackendResponse 200
          [("content-type", "video/webm"); ("content-length", "1024")]
          (Mock.utf8 "webm-bytes")))
    "my clip.webm"
  = ([EvFetch GET "http://localhost:8001/api/stream/my%20clip.webm"],
     inr (mkResponse 200
            [("content-type", "video/webm"); ("content-length", "1024");
             ("accept-ranges", "bytes")]
            (StreamBody (Mock.utf8 "webm-bytes")))).
Proof. vm_compute. reflexivity. Qed.

Example search_backend_down :
  search_GET (Mock.down NetworkError) Mock.parse [("q", "lo-fi beats")]
  = ([EvFetch GET "http://localhost:8001/api/search?q=lo-fi%20beats&max_results=20";
      EvLog "Search API error:" NetworkError],
     inr (json_response 500 (error_object (JStr "Failed to search videos")))).
Proof. vm_compute. reflexivity. Qed.

(** The platform refuses a body on status 304: the info handler's
    [NextResponse.json] throws inside the [try] block, and the handler
    answers with its generic 500 instead of the backend's status. *)
Example info_304_becomes_500 :
  info_GET (Mock.always (Mock.reply 304 Mock.invalid_url_text)) Mock.parse
    [("url", "https://example.com/watch?v=1")]
  = ([EvFetch GET
        "http://localhost:8001/api/video/info?url=https%3A%2F%2Fexample.com%2Fwatch%3Fv%3D1";
      EvLog "Video info API error:" TypeError],
     inr (generic_failure VideoInfo)).
Proof. vm_compute. reflexivity. Qed.

(** The same for a status outside 200..599, here 999. *)
Example info_999_becomes_500 :
  info_GET (Mock.always (Mock.reply 999 Mock.invalid_url_text)) Mock.parse
    [("url", "https://example.com/watch?v=1")]
  = ([EvFetch GET
        "http://localhost:8001/api/video/info?url=https%3A%2F%2Fexample.com%2Fwatch%3Fv%3D1";
      EvLog "Video info API error:" RangeError],
     inr (generic_failure VideoInfo)).
Proof. vm_compute. reflexivity. Qed.

(** The other endpoints percent-encode the value they put in the URL. *)
Example delete_url_encoded :
  outbound_calls
    (fst (library_DELETE (Mock.down NetworkError) Mock.parse "a/b c?.mp4"))
  = [(DELETE, "http://localhost:8001/api/library/a%2Fb%20c%3F.mp4")].
Proof. vm_compute. reflexivity. Qed.

(** ** Where the code departs from the specification *)

(** C5: the search handler puts the [max_results] value into the
    outbound URL as it came. With [q=test] and [max_results=5&q=other]
    the call goes to [/api/search?q=test&max_results=5&q=other], where
    the percent-encoded value would give [max_results=5%26q%3Dother];
    the [q] value of the same URL is percent-encoded. *)
Theorem search_max_results_not_encoded :
  forall (fetch_impl : Method -> string -> JsError + BackendResponse)
         (JSON_parse : list byte -> option json),
    let sp := [("q", "a b"); ("max_results", "5&q=other")] in
    outbound_calls (fst (search_GET fetch_impl JSON_parse sp))
    = [(GET, "http://localhost:8001/api/search?q=a%20b&max_results=5&q=other")]
    /\ outbound_calls (fst (search_GET fetch_impl JSON_parse sp))
       <> [(GET, BACKEND_URL ++ "/api/search?q=" ++ encodeURIComponent "a b"
                   ++ "&max_results=" ++ encodeURIComponent "5&q=other")]
    /\ encodeURIComponent "5&q=other" = "5%26q%3Dother".
Proof.
  intros fetch_impl JSON_parse sp.
  assert (Hcalls :
            outbound_calls (fst (search_GET fetch_impl JSON_parse sp))
            = [(GET, "http://localhost:8001/api/search?q=a%20b&max_results=5&q=other")]).
  { rewrite (search_GET_run fetch_impl JSON_parse sp "a b" eq_refl)
      by discriminate.
    unfold relay_run.
    destruct (fetch_impl GET _) as [e|r]; [reflexivity|].
    destruct (JSON_parse (body r)); reflexivity. }
  split; [exact Hcalls|]. split; [|reflexivity].
  rewrite Hcalls. vm_compute. discriminate.
Qed.

(** C2 does not hold for every [detail] string: the empty string is
    falsy, and the handler then answers with its own fallback message.
    Backend: 422 with a body whose [detail] is the empty string. *)
Lemma info_empty_detail_counterexample :
  ~ (forall (fetch_impl : Method -> string -> JsError + BackendResponse)
            (JSON_parse : list byte -> option json)
            (sp : URLSearchParams) (u : string) (r : BackendResponse),
        URLSearchParams_get sp "url" = Some u -> u <> EmptyString ->
        fetch_impl GET (BACKEND_URL ++ "/api/video/info?url="
                          ++ encodeURIComponent u) = inr r ->
        ok r = false ->
        (forall (j : json) (d : string),
            JSON_parse (body r) = Some j ->
            get_prop j "detail" = inr (Some (JStr d)) ->
            snd (info_GET fetch_impl JSON_parse sp)
            = inr (json_response (status r) (error_object (JStr d))))
        /\
        (JSON_parse (body r) = None ->
         snd (info_GET fetch_impl JSON_parse sp)
         = inr (json_response (status r)
                  (error_object (JStr "Unknown error"))))).
Proof.
  intros claim.
  destruct (claim (Mock.always (Mock.reply 422 Mock.empty_detail_text))
              Mock.parse [("url", "https://example.com/watch?v=1")]
              "https://example.com/watch?v=1"
              (Mock.reply 422 Mock.empty_detail_text)
              eq_refl ltac:(discriminate) eq_refl eq_refl) as [Hdetail _].
  specialize (Hdetail (JObj [("detail", JStr EmptyString)]) EmptyString
                eq_refl eq_refl).
  vm_compute in Hdetail. discriminate Hdetail.
Qed.

(** C4 does not hold for every endpoint: the search handler relays a
    backend failure whose body is JSON as a 200. Backend: 500 with the
    body [{"detail":"invalid url"}]. *)
Lemma search_relays_failure_as_200_counterexample :
  ~ (forall (fetch_impl : Method -> string -> JsError + BackendResponse)
            (JSON_parse : list byte -> option json)
            (e : Endpoint) (rq : Inbound) (m : Method) (u : string)
            (r : BackendResponse) (resp : Response),
        outbound_calls (fst (route fetch_impl JSON_parse e rq)) = [(m, u)] ->
        fetch_impl m u = inr r ->
        ok r = false ->
        snd (route fetch_impl JSON_parse e rq) = inr resp ->
        resp_status resp <> 200).
Proof.
  intros claim.
  apply (claim (Mock.always (Mock.reply 500 Mock.invalid_url_text))
           Mock.parse Search (mkInbound [("q", "test")] EmptyString)
           GET "http://localhost:8001/api/search?q=test&max_results=20"
           (Mock.reply 500 Mock.invalid_url_text)
           (json_response 200 Mock.invalid_url_json));
    reflexivity.
Qed.

(** C6 does not hold for every backend header: an empty content-type
    value is falsy, and the handler then sends [video/mp4]. Backend: 200
    with the header [content-type:] and no value. *)
Lemma stream_empty_content_type_counterexample :
  ~ (forall (fetch_impl : Method -> string -> JsError + BackendResponse)
            (filename : string) (r : BackendResponse) (v : string),
        fetch_impl GET (BACKEND_URL ++ "/api/stream/"
                          ++ encodeURIComponent filename) = inr r ->
        ok r = true ->
        Headers_get (headers r) "content-type" = Some v ->
        exists resp : Response,
          snd (stream_GET fetch_impl filename) = inr resp
          /\ Headers_get (resp_headers resp) "Content-Type" = Some v).
Proof.
  intros claim.
  destruct (claim (Mock.always
                     (mkBackendResponse 200 [("content-type", EmptyString)]
                        (Mock.utf8 "bytes")))
              "clip.mp4"
              (mkBackendResponse 200 [("content-type", EmptyString)]
                 (Mock.utf8 "bytes"))
              EmptyString eq_refl eq_refl eq_refl) as (resp & Hrun & Htype).
  vm_compute in Hrun. injection Hrun as <-.
  vm_compute in Htype. discriminate Htype.
Qed.

(** C7 does not hold for every decoding failure: in the info handler's
    branch for a backend failure the decoding error is replaced by a
    fallback document; nothing is logged and the response is not the
    generic 500. Backend: 404 with a body that is not JSON. *)
Lemma info_decode_failure_counterexample :
  ~ (forall (fetch_impl : Method -> string -> JsError + BackendResponse)
            (JSON_parse : list byte -> option json)
            (e : Endpoint) (rq : Inbound) (m : Method) (u : string)
            (r : BackendResponse),
        outbound_calls (fst (route fetch_impl JSON_parse e rq)) = [(m, u)] ->
        fetch_impl m u = inr r ->
        JSON_parse (body r) = None ->
        e <> Stream ->
        snd (route fetch_impl JSON_parse e rq) = inr (generic_failure e)
        /\ logged (fst (route fetch_impl JSON_parse e rq)) <> []).
Proof.
  intros claim.
  destruct (claim (Mock.always (Mock.reply 404 "<html>Not Found</html>"))
              Mock.parse VideoInfo
              (mkInbound [("url", "https://example.com/watch?v=1")] EmptyString)
              GET
              "http://localhost:8001/api/video/info?url=https%3A%2F%2Fexample.com%2Fwatch%3Fv%3D1"
              (Mock.reply 404 "<html>Not Found</html>")
              eq_refl eq_refl eq_refl ltac:(discriminate)) as [Hresp _].
  vm_compute in Hresp. discriminate Hresp.
Qed.

(** C10 does not hold for every body that decodes: on [null] the read of
    [errorData.detail] throws, and the handler answers with its generic
    500. Backend: 400 with the body [null]. *)
Lemma info_null_body_counterexample :
  ~ (forall (fetch_impl : Method -> string -> JsError + BackendResponse)
            (JSON_parse : list byte -> option json)
            (sp : URLSearchParams) (u : string) (r : BackendResponse)
            (j : json),
        URLSearchParams_get sp "url" = Some u -> u <> EmptyString ->
        fetch_impl GET (BACKEND_URL ++ "/api/video/info?url="
                          ++ encodeURIComponent u) = inr r ->
        ok r = false ->
        JSON_parse (body r) = Some j ->
        (forall v, get_prop j "detail" = inr (Some v) -> truthy v = false) ->
        snd (info_GET fetch_impl JSON_parse sp)
        = inr (json_response (status r)
                 (error_object (JStr "Failed to get video info")))).
Proof.
  intros claim.
  assert (H := claim (Mock.always (Mock.reply 400 "null")) Mock.parse
                 [("url", "https://example.com/watch?v=1")]
                 "https://example.com/watch?v=1"
                 (Mock.reply 400 "null") JNull
                 eq_refl ltac:(discriminate) eq_refl eq_refl eq_refl
                 ltac:(discriminate)).
  vm_compute in H. discriminate H.
Qed.

(** ** The theorems at concrete inputs *)

(** A request with only [max_results]: both handlers answer 400 and call
    nothing. *)
Lemma required_parameter_absent_witness :
  info_GET (Mock.down NetworkError) Mock.parse [("max_results", "5")]
  = ([], inr (json_response 400
                (error_object (JStr "URL parameter is required"))))
  /\ outbound_calls
       (fst (search_GET (Mock.down NetworkError) Mock.parse
               [("max_results", "5")])) = [].
Proof.
  destruct (required_parameter_absent (Mock.down NetworkError) Mock.parse
              [("max_results", "5")]) as [Hinfo Hsearch].
  split.
  - apply Hinfo. reflexivity.
  - rewrite Hsearch; reflexivity.
Defined.

(** Backend 422 with [{"detail":"invalid url"}], and backend 500 with an
    HTML body. *)
Lemma info_backend_error_witness :
  info_GET (Mock.always (Mock.reply 422 Mock.invalid_url_text)) Mock.parse
    [("url", "https://example.com/watch?v=1")]
  = ([EvFetch GET
        "http://localhost:8001/api/video/info?url=https%3A%2F%2Fexample.com%2Fwatch%3Fv%3D1"],
     inr (json_response 422 (error_object (JStr "invalid url"))))
  /\
  info_GET (Mock.always (Mock.reply 500 "<html>Internal Server Error</html>"))
    Mock.parse [("url", "https://example.com/watch?v=1")]
  = ([EvFetch GET
        "http://localhost:8001/api/video/info?url=https%3A%2F%2Fexample.com%2Fwatch%3Fv%3D1"],
     inr (json_response 500 (error_object (JStr "Unknown error")))).
Proof.
  split.
  - refine (proj1
              (info_backend_error
                 (Mock.always (Mock.reply 422 Mock.invalid_url_text)) Mock.parse
                 [("url", "https://example.com/watch?v=1")]
                 "https://example.com/watch?v=1"
                 (Mock.reply 422 Mock.invalid_url_text)
                 eq_refl _ eq_refl eq_refl _ _)
              Mock.invalid_url_json "invalid url" eq_refl eq_refl _);
      try discriminate; simpl; lia.
  - refine (proj2
              (info_backend_error
                 (Mock.always
                    (Mock.reply 500 "<html>Internal Server Error</html>"))
                 Mock.parse
                 [("url", "https://example.com/watch?v=1")]
                 "https://example.com/watch?v=1"
                 (Mock.reply 500 "<html>Internal Server Error</html>")
                 eq_refl _ eq_refl eq_refl _ _)
              eq_refl);
      try discriminate; simpl; lia.
Defined.

(** Backend 500 on a stream request. *)
Lemma stream_backend_failure_witness :
  stream_GET (Mock.always (Mock.reply 500 "out of disk")) "my clip.webm"
  = ([EvFetch GET "http://localhost:8001/api/stream/my%20clip.webm"],
     inr (json_response 404 (error_object (JStr "Video not found")))).
Proof.
  exact (stream_backend_failure
           (Mock.always (Mock.reply 500 "out of disk")) "my clip.webm"
           (Mock.reply 500 "out of disk") eq_refl eq_refl).
Defined.

(** Backend 503 with the body [{}]: the stream handler answers 404, the
    library handler relays the body with 200. *)
Lemma backend_failure_propagation_witness :
  route (Mock.always (Mock.reply 503 "{}")) Mock.parse Stream
    (mkInbound [] "my clip.webm")
  = ([EvFetch GET "http://localhost:8001/api/stream/my%20clip.webm"],
     inr (json_response 404 (error_object (JStr "Video not found"))))
  /\
  route (Mock.always (Mock.reply 503 "{}")) Mock.parse Library
    (mkInbound [] EmptyString)
  = ([EvFetch GET "http://localhost:8001/api/library"],
     inr (json_response 200 (JObj []))).
Proof.
  split.
  - exact (backend_failure_propagation
             (Mock.always (Mock.reply 503 "{}")) Mock.parse Stream
             (mkInbound [] "my clip.webm")
             GET "http://localhost:8001/api/stream/my%20clip.webm"
             (Mock.reply 503 "{}") eq_refl eq_refl eq_refl).
  - exact (proj1
             (backend_failure_propagation
                (Mock.always (Mock.reply 503 "{}")) Mock.parse Library
                (mkInbound [] EmptyString)
                GET "http://localhost:8001/api/library"
                (Mock.reply 503 "{}") eq_refl eq_refl eq_refl)
             (JObj []) eq_refl).
Defined.

(** Backend 200 with [content-type: video/webm] and
    [content-length: 1024]. *)
Lemma stream_success_witness :
  exists resp : Response,
    stream_GET
      (Mock.always
         (mkBackendResponse 200
            [("content-type", "video/webm"); ("content-length", "1024")]
            (Mock.utf8 "webm-bytes")))
      "my clip.webm"
    = ([EvFetch GET "http://localhost:8001/api/stream/my%20clip.webm"],
       inr resp)
    /\ resp_status resp = 200
    /\ Headers_get (resp_headers resp) "Content-Type" = Some "video/webm"
    /\ Headers_get (resp_headers resp) "Content-Length" = Some "1024"
    /\ Headers_get (resp_headers resp) "Accept-Ranges" = Some "bytes"
    /\ resp_body resp = StreamBody (Mock.utf8 "webm-bytes").
Proof.
  destruct (stream_success
              (Mock.always
                 (mkBackendResponse 200
                    [("content-type", "video/webm"); ("content-length", "1024")]
                    (Mock.utf8 "webm-bytes")))
              "my clip.webm"
              (mkBackendResponse 200
                 [("content-type", "video/webm"); ("content-length", "1024")]
                 (Mock.utf8 "webm-bytes"))
              eq_refl eq_refl)
    as (resp & Hrun & Hstatus & Htype & _ & Hlength & _ & Hranges & Hbody).
  exists resp.
  split; [exact Hrun|]. split; [exact Hstatus|].
  split; [apply Htype; [reflexivity|discriminate]|].
  split; [apply Hlength; [reflexivity|discriminate]|].
  split; [exact Hranges|exact Hbody].
Defined.

(** The backend is down on a delete; the backend sends HTML to the
    trending handler. *)
Lemma exceptions_become_500_witness :
  route (Mock.down NetworkError) Mock.parse LibraryDelete
    (mkInbound [] "old video.mp4")
  = ([EvFetch DELETE "http://localhost:8001/api/library/old%20video.mp4";
      EvLog "Delete video API error:" NetworkError],
     inr (json_response 500 (error_object (JStr "Failed to delete video"))))
  /\
  route (Mock.always (Mock.reply 200 "<html>")) Mock.parse Trending
    (mkInbound [] EmptyString)
  = ([EvFetch GET "http://localhost:8001/api/trending";
      EvLog "Trending API error:" SyntaxError],
     inr (json_response 500
            (error_object (JStr "Failed to get trending videos")))).
Proof.
  split.
  - exact (proj1
             (exceptions_become_500 (Mock.down NetworkError) Mock.parse
                LibraryDelete (mkInbound [] "old video.mp4"))
             DELETE "http://localhost:8001/api/library/old%20video.mp4"
             NetworkError eq_refl eq_refl).
  - exact (proj1 (proj2
             (exceptions_become_500 (Mock.always (Mock.reply 200 "<html>"))
                Mock.parse Trending (mkInbound [] EmptyString)))
             GET "http://localhost:8001/api/trending"
             (Mock.reply 200 "<html>") eq_refl eq_refl eq_refl
             (or_introl eq_refl)).
Defined.

(** [q=test&max_results=5] against a backend that answers [[]]. *)
Lemma search_test_5_witness :
  search_GET (Mock.always (Mock.reply 200 "[]")) Mock.parse
    [("q", "test"); ("max_results", "5")]
  = ([EvFetch GET "http://localhost:8001/api/search?q=test&max_results=5"],
     inr (json_response 200 (JArr []))).
Proof.
  exact (search_test_5 (Mock.always (Mock.reply 200 "[]")) Mock.parse
           [("q", "test"); ("max_results", "5")]
           (Mock.reply 200 "[]") (JArr [])
           eq_refl eq_refl eq_refl eq_refl).
Defined.

(** [q=lo-fi beats] with an empty [max_results]. *)
Lemma search_default_max_results_witness :
  outbound_calls
    (fst (search_GET (Mock.always (Mock.reply 200 "[]")) Mock.parse
            [("q", "lo-fi beats"); ("max_results", EmptyString)]))
  = [(GET, "http://localhost:8001/api/search?q=lo-fi%20beats&max_results=20")].
Proof.
  refine (search_default_max_results
            (Mock.always (Mock.reply 200 "[]")) Mock.parse
            [("q", "lo-fi beats"); ("max_results", EmptyString)] "lo-fi beats"
            eq_refl _ (or_intror eq_refl)).
  discriminate.
Defined.

(** Backend 404 with the body [{}]. *)
Lemma info_fallback_message_witness :
  info_GET (Mock.always (Mock.reply 404 "{}")) Mock.parse
    [("url", "https://example.com/watch?v=1")]
  = ([EvFetch GET
        "http://localhost:8001/api/video/info?url=https%3A%2F%2Fexample.com%2Fwatch%3Fv%3D1"],
     inr (json_response 404 (error_object (JStr "Failed to get video info")))).
Proof.
  refine (proj1
            (info_fallback_message
               (Mock.always (Mock.reply 404 "{}")) Mock.parse
               [("url", "https://example.com/watch?v=1")]
               "https://example.com/watch?v=1"
               (Mock.reply 404 "{}") (JObj [])
               eq_refl _ eq_refl eq_refl _ _ eq_refl _ _));
    try discriminate; simpl; lia.
Defined.

(** * Further properties of the handlers *)

(** ** Percent-encoding *)

Lemma hex_digit_unreserved (n : nat) : is_unreserved (hex_digit n) = true.
Proof.
  do 16 (destruct n as [|n]; [reflexivity|]). unfold hex_digit. simpl.
  destruct n; reflexivity.
Qed.

(** The encoded form is made of unreserved characters and [%]. *)
Lemma encodeURIComponent_chars (s : string) (c : ascii) :
  In c (list_ascii_of_string (encodeURIComponent s)) ->
  is_unreserved c = true \/ c = "%"%char.
Proof.
  induction s as [|a s IH]; simpl; [contradiction|].
  destruct (is_unreserved a) eqn:Ha; simpl.
  - intros [<-|Hin]; [left; exact Ha|apply IH; exact Hin].
  - intros [<-|[<-|[<-|Hin]]].
    + right; reflexivity.
    + left; apply hex_digit_unreserved.
    + left; apply hex_digit_unreserved.
    + apply IH; exact Hin.
Qed.

Lemma url_delimiter_not_encoded (c : ascii) :
  url_delimiter c = true -> is_unreserved c = false /\ c <> "%"%char.
Proof.
  unfold url_delimiter. simpl.
  repeat match goal with
         | |- context [Ascii.eqb c ?d] =>
             destruct (Ascii.eqb_spec c d);
             [subst; intros _; split; [reflexivity|discriminate]|]
         end.
  simpl. discriminate.
Qed.

Lemma encodeURIComponent_no_delimiter (s : string) (c : ascii) :
  In c (list_ascii_of_string (encodeURIComponent s)) ->
  url_delimiter c = false.
Proof.
  intros Hin. destruct (url_delimiter c) eqn:Hd; [|reflexivity].
  destruct (url_delimiter_not_encoded c Hd) as [Hun Hpc].
  destruct (encodeURIComponent_chars s c Hin) as [H|H].
  - rewrite H in Hun. discriminate.
  - contradiction.
Qed.




(** On a string of unreserved characters the encoding changes nothing. *)
Lemma encodeURIComponent_unreserved (s : string) :
  forallb is_unreserved (list_ascii_of_string s) = true ->
  encodeURIComponent s = s.
Proof.
  induction s as [|c s IH]; simpl; [reflexivity|].
  intros H. apply andb_true_iff in H. destruct H as [Hc Hs].
  rewrite Hc, (IH Hs). reflexivity.
Qed.

Lemma initialize_response_inv (st : Z) :
  initialize_response st true = inr tt ->
  200 <= st <= 599 /\ null_body_status st = false.
Proof.
  unfold initialize_response.
  destruct (200 <=? st) eqn:Hlo; [|discriminate].
  destruct (st <=? 599) eqn:Hhi; [|discriminate].
  cbn [andb negb].
  destruct (null_body_status st); [discriminate|].
  intros _. apply Z.leb_le in Hlo. apply Z.leb_le in Hhi. lia.
Qed.

Lemma initialize_response_refused (st : Z) :
  st < 200 \/ 599 < st \/ st = 304 ->
  exists err, initialize_response st true = inl err.
Proof.
  unfold initialize_response. intros H.
  destruct (200 <=? st) eqn:Hlo; [|eexists; reflexivity].
  destruct (st <=? 599) eqn:Hhi; [|eexists; reflexivity].
  apply Z.leb_le in Hlo. apply Z.leb_le in Hhi.
  destruct H as [H|[H|H]]; try lia. subst st. eexists; reflexivity.
Qed.

Section MoreHandlerFacts.

Variable fetch_impl : Method -> string -> JsError + BackendResponse.
Variable JSON_parse : list byte -> option json.

(** ** Outbound calls *)

(** X1. Every run of every handler makes at most one outbound call: there is
    no retry, whatever the backend does. *)
Theorem at_most_one_outbound_call (e : Endpoint) (rq : Inbound) :
  (length (outbound_calls (fst (route fetch_impl JSON_parse e rq))) <= 1)%nat.
Proof.
  rewrite route_calls.
  destruct (outbound_request e rq); simpl; lia.
Qed.

(** X2. A required parameter that is present with the empty string as its
    value is treated like a missing one: 400, and no event. *)
Theorem empty_parameter_rejected (sp : URLSearchParams) :
  (URLSearchParams_get sp "url" = Some EmptyString ->
   info_GET fetch_impl JSON_parse sp =
     ([], inr (json_response 400
                 (error_object (JStr "URL parameter is required")))))
  /\
  (URLSearchParams_get sp "q" = Some EmptyString ->
   search_GET fetch_impl JSON_parse sp =
     ([], inr (json_response 400
                 (error_object
                    (JStr ("Query parameter " ++ dquote ++ "q" ++ dquote
                             ++ " is required")))))).
Proof.
  split; intros H.
  - unfold info_GET. rewrite H. reflexivity.
  - unfold search_GET. rewrite H. reflexivity.
Qed.

(** X3. The trending, library, delete and stream handlers validate nothing:
    on every request, with every [filename] (the empty one too) and
    whatever the backend does, each makes exactly one call, a GET (a
    DELETE for the delete handler) of its backend path. *)
Theorem unvalidated_endpoints_call (filename : string) :
  outbound_calls (fst (trending_GET fetch_impl JSON_parse))
  = [(GET, BACKEND_URL ++ "/api/trending")]
  /\ outbound_calls (fst (library_GET fetch_impl JSON_parse))
     = [(GET, BACKEND_URL ++ "/api/library")]
  /\ outbound_calls (fst (library_DELETE fetch_impl JSON_parse filename))
     = [(DELETE, BACKEND_URL ++ "/api/library/" ++ encodeURIComponent filename)]
  /\ outbound_calls (fst (stream_GET fetch_impl filename))
     = [(GET, BACKEND_URL ++ "/api/stream/" ++ encodeURIComponent filename)].
Proof.
  repeat split.
  - exact (route_calls fetch_impl JSON_parse Trending (mkInbound [] filename)).
  - exact (route_calls fetch_impl JSON_parse Library (mkInbound [] filename)).
  - exact (route_calls fetch_impl JSON_parse LibraryDelete
             (mkInbound [] filename)).
  - exact (route_calls fetch_impl JSON_parse Stream (mkInbound [] filename)).
Qed.

(** X4. The search, trending, library and delete handlers return whatever
    JSON the backend's body decodes to, with status 200, and log
    nothing; the backend's status and headers play no part. *)
Theorem relay_returns_decoded_body (e : Endpoint) (rq : Inbound)
    (m : Method) (u : string) (r : BackendResponse) (data : json) :
  plain_relay e = true ->
  outbound_calls (fst (route fetch_impl JSON_parse e rq)) = [(m, u)] ->
  fetch_impl m u = inr r ->
  JSON_parse (body r) = Some data ->
  route fetch_impl JSON_parse e rq =
    ([EvFetch m u], inr (json_response 200 data)).
Proof.
  intros Hplain Hcalls Hfetch Hparse.
  apply route_calls_inv in Hcalls.
  rewrite (route_plain_relay fetch_impl JSON_parse e rq m u Hplain Hcalls).
  unfold relay_run. rewrite Hfetch, Hparse. reflexivity.
Qed.

(** X5. On a 2xx answer whose body decodes, the info handler returns the
    decoded value with status 200: the backend's own 2xx status (201,
    206, ...) is not passed on. *)
Theorem info_success (sp : URLSearchParams) (u : string)
    (r : BackendResponse) (data : json) :
  URLSearchParams_get sp "url" = Some u -> u <> EmptyString ->
  fetch_impl GET (BACKEND_URL ++ "/api/video/info?url=" ++ encodeURIComponent u)
    = inr r ->
  ok r = true ->
  JSON_parse (body r) = Some data ->
  info_GET fetch_impl JSON_parse sp =
    ([EvFetch GET (BACKEND_URL ++ "/api/video/info?url=" ++ encodeURIComponent u)],
     inr (json_response 200 data)).
Proof.
  intros Hu Hne Hfetch Hok Hparse.
  rewrite (info_GET_run fetch_impl JSON_parse sp u Hu Hne). cbv zeta.
  rewrite Hfetch, Hok, Hparse. reflexivity.
Qed.

(** ** What reaches the backend URL *)


Lemma info_calls (sp : URLSearchParams) (u : string) :
  URLSearchParams_get sp "url" = Some u -> u <> EmptyString ->
  outbound_calls (fst (info_GET fetch_impl JSON_parse sp))
  = [(GET, BACKEND_URL ++ "/api/video/info?url=" ++ encodeURIComponent u)].
Proof.
  intros Hu Hne.
  pose proof (route_calls fetch_impl JSON_parse VideoInfo (mkInbound sp u))
    as H.
  cbn [route outbound_request searchParams] in H.
  rewrite Hu, (truthy_str_Some u Hne) in H. exact H.
Qed.

Lemma search_calls (sp : URLSearchParams) (q : string) :
  URLSearchParams_get sp "q" = Some q -> q <> EmptyString ->
  outbound_calls (fst (search_GET fetch_impl JSON_parse sp))
  = [(GET, BACKEND_URL ++ "/api/search?q=" ++ encodeURIComponent q
             ++ "&max_results="
             ++ or_str (URLSearchParams_get sp "max_results") "20")].
Proof.
  intros Hq Hne.
  pose proof (route_calls fetch_impl JSON_parse Search (mkInbound sp q)) as H.
  cbn [route outbound_request searchParams] in H.
  rewrite Hq, (truthy_str_Some q Hne) in H. exact H.
Qed.

(** X7. The [url] value of the info handler and the [q] value of the search
    handler reach the backend URL as one query value: the text put
    after [url=], and between [q=] and [&max_results=], holds no [/],
    [?], [#], [&], [=], [+] or space. *)
Theorem query_value_stays_in_its_place (sp : URLSearchParams) :
  (forall u, URLSearchParams_get sp "url" = Some u -> u <> EmptyString ->
     exists value : string,
       outbound_calls (fst (info_GET fetch_impl JSON_parse sp))
       = [(GET, BACKEND_URL ++ "/api/video/info?url=" ++ value)]
       /\ forall c, In c (list_ascii_of_string value) -> url_delimiter c = false)
  /\
  (forall q, URLSearchParams_get sp "q" = Some q -> q <> EmptyString ->
     exists value : string,
       outbound_calls (fst (search_GET fetch_impl JSON_parse sp))
       = [(GET, BACKEND_URL ++ "/api/search?q=" ++ value ++ "&max_results="
                  ++ or_str (URLSearchParams_get sp "max_results") "20")]
       /\ forall c, In c (list_ascii_of_string value) -> url_delimiter c = false).
Proof.
  split.
  - intros u Hu Hne. exists (encodeURIComponent u).
    split; [apply info_calls; assumption|].
    intros c. apply encodeURIComponent_no_delimiter.
  - intros q Hq Hne. exists (encodeURIComponent q).
    split; [apply search_calls; assumption|].
    intros c. apply encodeURIComponent_no_delimiter.
Qed.


(** X9. When the [max_results] value is made of unreserved characters only
    (digits, for one), the search URL carries it percent-encoded: the
    encoding would not change it. *)
Theorem search_unreserved_max_results (sp : URLSearchParams) (q n : string) :
  URLSearchParams_get sp "q" = Some q -> q <> EmptyString ->
  URLSearchParams_get sp "max_results" = Some n -> n <> EmptyString ->
  forallb is_unreserved (list_ascii_of_string n) = true ->
  outbound_calls (fst (search_GET fetch_impl JSON_parse sp))
  = [(GET, BACKEND_URL ++ "/api/search?q=" ++ encodeURIComponent q
             ++ "&max_results=" ++ encodeURIComponent n)].
Proof.
  intros Hq Hqne Hn Hnne Hun.
  rewrite (search_calls sp q Hq Hqne), Hn.
  rewrite (encodeURIComponent_unreserved n Hun).
  cbn [or_str]. rewrite (proj2 (String.eqb_neq n EmptyString) Hnne).
  reflexivity.
Qed.

(** ** What the handlers return *)

(** X10. A successful stream response carries a non-empty content type, the
    backend's non-empty content length if there is one, and
    [accept-ranges: bytes], and no other header: nothing else that the
    backend sent (cookies, caching or range headers) is passed on. *)
Theorem stream_forwards_no_other_header (filename : string)
    (r : BackendResponse) :
  fetch_impl GET (BACKEND_URL ++ "/api/stream/" ++ encodeURIComponent filename)
    = inr r ->
  ok r = true ->
  exists resp : Response,
    snd (stream_GET fetch_impl filename) = inr resp
    /\ forall name value : string,
         In (name, value) (resp_headers resp) ->
         (name = "content-type" /\ value <> EmptyString)
         \/ (name = "content-length"
             /\ Headers_get (headers r) "content-length" = Some value
             /\ value <> EmptyString)
         \/ (name = "accept-ranges" /\ value = "bytes").
Proof.
  intros Hfetch Hok.
  pose proof (stream_GET_run fetch_impl filename) as Hrun. cbv zeta in Hrun.
  rewrite Hrun, Hfetch, Hok.
  eexists. split; [reflexivity|]. cbn [resp_headers]. unfold stream_headers.
  destruct (Headers_get (headers r) "content-length") as [len|] eqn:Hlen;
    [destruct (String.eqb_spec len EmptyString) as [->|Hlen0]|];
    cbn [truthy_str narrowed];
    try rewrite (proj2 (String.eqb_neq len EmptyString) Hlen0);
    cbn [negb String.eqb];
    (destruct (Headers_get (headers r) "content-type") as [ct|] eqn:Hct;
     [destruct (String.eqb_spec ct EmptyString) as [->|Hct0]|];
     cbn [or_str String.eqb];
     try rewrite (proj2 (String.eqb_neq ct EmptyString) Hct0));
    intros name value Hin; vm_compute in Hin;
    repeat match type of Hin with
           | _ \/ _ => destruct Hin as [Hin|Hin]
           | False => contradiction
           | (_, _) = (_, _) => injection Hin as <- <-
           end;
    first [ left; split; [reflexivity|first [assumption|discriminate]]
          | right; left; split; [reflexivity|split; [reflexivity|assumption]]
          | right; right; split; reflexivity ].
Qed.

(** X11. A handler writes to the console at most once in a run, under its own
    label, and only in a run that it answers with its generic 500. *)
Theorem log_only_with_generic_500 (e : Endpoint) (rq : Inbound) :
  logged (fst (route fetch_impl JSON_parse e rq)) = []
  \/ exists err : JsError,
       logged (fst (route fetch_impl JSON_parse e rq)) = [(log_label e, err)]
       /\ snd (route fetch_impl JSON_parse e rq) = inr (generic_failure e).
Proof.
  destruct (outbound_request e rq) as [[m u]|] eqn:Hreq.
  - destruct (plain_relay e) eqn:Hplain.
    + rewrite (route_plain_relay fetch_impl JSON_parse e rq m u Hplain Hreq).
      unfold relay_run.
      destruct (fetch_impl m u) as [err|r];
        [right; eexists; split; reflexivity|].
      destruct (JSON_parse (body r));
        [left; reflexivity|right; eexists; split; reflexivity].
    + destruct e; try discriminate Hplain.
      * rewrite (route_info fetch_impl JSON_parse rq m u Hreq). cbv zeta.
        destruct (fetch_impl m u) as [err|r];
          [right; eexists; split; reflexivity|].
        destruct (ok r).
        -- destruct (JSON_parse (body r));
             [left; reflexivity|right; eexists; split; reflexivity].
        -- destruct (get_prop _ "detail");
             [right; eexists; split; reflexivity|].
           destruct (initialize_response (status r) true);
             [right; eexists; split; reflexivity|left; reflexivity].
      * rewrite (route_stream fetch_impl JSON_parse rq m u Hreq).
        destruct (fetch_impl m u) as [err|r];
          [right; eexists; split; reflexivity|].
        destruct (ok r); left; reflexivity.
  - destruct (route_rejected fetch_impl JSON_parse e rq Hreq) as [message ->].
    left; reflexivity.
Qed.

(** X12. The statuses a handler can answer with: 200 or 500 for trending,
    library and delete; also 400 for search; 200, 404 or 500 for stream;
    for info 200, 400, 500, or the status of a backend answer that was
    not 2xx, which then lies in 300..599 and is not 304. *)
Theorem handler_statuses (e : Endpoint) (rq : Inbound) (resp : Response) :
  snd (route fetch_impl JSON_parse e rq) = inr resp ->
  match e with
  | Trending | Library | LibraryDelete =>
      resp_status resp = 200 \/ resp_status resp = 500
  | Search =>
      resp_status resp = 200 \/ resp_status resp = 400
      \/ resp_status resp = 500
  | Stream =>
      resp_status resp = 200 \/ resp_status resp = 404
      \/ resp_status resp = 500
  | VideoInfo =>
      resp_status resp = 200 \/ resp_status resp = 400
      \/ resp_status resp = 500
      \/ exists (m : Method) (u : string) (r : BackendResponse),
           fetch_impl m u = inr r /\ ok r = false
           /\ resp_status resp = status r
           /\ 300 <= status r <= 599 /\ status r <> 304
  end.
Proof.
  intros Hresp.
  destruct (outbound_request e rq) as [[m u]|] eqn:Hreq.
  - destruct (plain_relay e) eqn:Hplain.
    + rewrite (route_plain_relay fetch_impl JSON_parse e rq m u Hplain Hreq)
        in Hresp.
      unfold relay_run in Hresp.
      assert (Hst : resp_status resp = 200 \/ resp_status resp = 500).
      { destruct (fetch_impl m u) as [err|r];
          [injection Hresp as <-; right; reflexivity|].
        destruct (JSON_parse (body r)); injection Hresp as <-;
          [left|right]; reflexivity. }
      destruct e; try discriminate Hplain; tauto.
    + destruct e; try discriminate Hplain.
      * rewrite (route_info fetch_impl JSON_parse rq m u Hreq) in Hresp.
        cbv zeta in Hresp.
        destruct (fetch_impl m u) as [err|r] eqn:Hfetch;
          [injection Hresp as <-; right; right; left; reflexivity|].
        destruct (ok r) eqn:Hok.
        -- destruct (JSON_parse (body r)); injection Hresp as <-;
             [left|right; right; left]; reflexivity.
        -- destruct (get_prop _ "detail");
             [injection Hresp as <-; right; right; left; reflexivity|].
           destruct (initialize_response (status r) true) as [err|[]] eqn:Hinit;
             [injection Hresp as <-; right; right; left; reflexivity|].
           injection Hresp as <-. right; right; right.
           exists m, u, r.
           destruct (initialize_response_inv (status r) Hinit) as [Hrange Hnull].
           split; [exact Hfetch|]. split; [exact Hok|].
           split; [reflexivity|].
           unfold ok in Hok. apply andb_false_iff in Hok.
           split.
           ++ destruct Hok as [Hok|Hok];
                [apply Z.leb_gt in Hok|apply Z.leb_gt in Hok]; lia.
           ++ intros H304. rewrite H304 in Hnull. discriminate Hnull.
      * rewrite (route_stream fetch_impl JSON_parse rq m u Hreq) in Hresp.
        destruct (fetch_impl m u) as [err|r];
          [injection Hresp as <-; right; right; reflexivity|].
        destruct (ok r); injection Hresp as <-;
          [left|right; left]; reflexivity.
  - destruct (route_rejected fetch_impl JSON_parse e rq Hreq) as [message Hrun].
    rewrite Hrun in Hresp. injection Hresp as <-.
    destruct e; try discriminate Hreq; right; left; reflexivity.
Qed.

(** ** The info handler on a backend failure *)

(** X13. Whatever truthy JSON value the backend's error document has as its
    [detail], a list or an object as well as a string, the info handler
    passes that value on as the [error] of its answer. *)
Theorem info_relays_any_truthy_detail (sp : URLSearchParams) (u : string)
    (r : BackendResponse) (j v : json) :
  URLSearchParams_get sp "url" = Some u -> u <> EmptyString ->
  fetch_impl GET (BACKEND_URL ++ "/api/video/info?url=" ++ encodeURIComponent u)
    = inr r ->
  ok r = false -> 200 <= status r <= 599 -> status r <> 304 ->
  JSON_parse (body r) = Some j ->
  get_prop j "detail" = inr (Some v) ->
  truthy v = true ->
  info_GET fetch_impl JSON_parse sp =
    ([EvFetch GET (BACKEND_URL ++ "/api/video/info?url=" ++ encodeURIComponent u)],
     inr (json_response (status r) (error_object v))).
Proof.
  intros Hu Hne Hfetch Hok Hrange H304 Hparse Hdetail Htruthy.
  pose proof (not_ok_status_accepted r Hok Hrange H304) as Hinit.
  rewrite (info_GET_run fetch_impl JSON_parse sp u Hu Hne). cbv zeta.
  rewrite Hfetch, Hok, Hparse, Hdetail, Hinit.
  cbn [or_json]. rewrite Htruthy. reflexivity.
Qed.

(** X14. When the backend's answer is not 2xx and its body is the JSON value
    [null], reading [detail] throws: the info handler logs a [TypeError]
    and answers with its generic 500, whatever the backend's status. *)
Theorem info_null_error_body (sp : URLSearchParams) (u : string)
    (r : BackendResponse) :
  URLSearchParams_get sp "url" = Some u -> u <> EmptyString ->
  fetch_impl GET (BACKEND_URL ++ "/api/video/info?url=" ++ encodeURIComponent u)
    = inr r ->
  ok r = false ->
  JSON_parse (body r) = Some JNull ->
  info_GET fetch_impl JSON_parse sp =
    ([EvFetch GET (BACKEND_URL ++ "/api/video/info?url=" ++ encodeURIComponent u);
      EvLog "Video info API error:" TypeError],
     inr (generic_failure VideoInfo)).
Proof.
  intros Hu Hne Hfetch Hok Hparse.
  rewrite (info_GET_run fetch_impl JSON_parse sp u Hu Hne). cbv zeta.
  rewrite Hfetch, Hok, Hparse. reflexivity.
Qed.

(** X15. When the backend's status is one that the platform refuses on a
    response with a body (below 200, above 599, or 304), the info
    handler cannot pass it on: building the answer throws, the handler
    logs the exception and answers with its generic 500. *)
Theorem info_refused_status (sp : URLSearchParams) (u : string)
    (r : BackendResponse) :
  URLSearchParams_get sp "url" = Some u -> u <> EmptyString ->
  fetch_impl GET (BACKEND_URL ++ "/api/video/info?url=" ++ encodeURIComponent u)
    = inr r ->
  status r < 200 \/ 599 < status r \/ status r = 304 ->
  exists err : JsError,
    info_GET fetch_impl JSON_parse sp =
      ([EvFetch GET (BACKEND_URL ++ "/api/video/info?url="
                       ++ encodeURIComponent u);
        EvLog "Video info API error:" err],
       inr (generic_failure VideoInfo)).
Proof.
  intros Hu Hne Hfetch Hstatus.
  assert (Hok : ok r = false).
  { unfold ok. apply andb_false_iff.
    destruct Hstatus as [H|[H|H]].
    - left. apply Z.leb_gt. exact H.
    - right. apply Z.leb_gt. lia.
    - right. apply Z.leb_gt. lia. }
  destruct (initialize_response_refused (status r) Hstatus) as [err Hinit].
  rewrite (info_GET_run fetch_impl JSON_parse sp u Hu Hne). cbv zeta.
  rewrite Hfetch, Hok, Hinit.
  destruct (get_prop _ "detail"); eexists; reflexivity.
Qed.

End MoreHandlerFacts.

(** ** The further properties at concrete inputs *)

(** [url=], then [q=], with nothing after the equals sign. *)
Lemma empty_parameter_rejected_witness :
  outbound_calls
    (fst (info_GET (Mock.always (Mock.reply 200 "{}")) Mock.parse
            [("url", EmptyString)])) = []
  /\ outbound_calls
       (fst (search_GET (Mock.always (Mock.reply 200 "{}")) Mock.parse
               [("q", EmptyString); ("max_results", "5")])) = [].
Proof.
  split.
  - rewrite (proj1 (empty_parameter_rejected
                      (Mock.always (Mock.reply 200 "{}")) Mock.parse
                      [("url", EmptyString)]) eq_refl).
    reflexivity.
  - rewrite (proj2 (empty_parameter_rejected
                      (Mock.always (Mock.reply 200 "{}")) Mock.parse
                      [("q", EmptyString); ("max_results", "5")]) eq_refl).
    reflexivity.
Defined.

(** A delete that the backend answers with 404 and a JSON document. *)
Lemma relay_returns_decoded_body_witness :
  route (Mock.always (Mock.reply 404 Mock.invalid_url_text)) Mock.parse
    LibraryDelete (mkInbound [] "gone.mp4")
  = ([EvFetch DELETE "http://localhost:8001/api/library/gone.mp4"],
     inr (json_response 200 Mock.invalid_url_json)).
Proof.
  exact (relay_returns_decoded_body
           (Mock.always (Mock.reply 404 Mock.invalid_url_text)) Mock.parse
           LibraryDelete (mkInbound [] "gone.mp4")
           DELETE "http://localhost:8001/api/library/gone.mp4"
           (Mock.reply 404 Mock.invalid_url_text) Mock.invalid_url_json
           eq_refl eq_refl eq_refl eq_refl).
Defined.

(** Backend 201 with the body [{}]. *)
Lemma info_success_witness :
  info_GET (Mock.always (Mock.reply 201 "{}")) Mock.parse
    [("url", "https://example.com/watch?v=1")]
  = ([EvFetch GET
        "http://localhost:8001/api/video/info?url=https%3A%2F%2Fexample.com%2Fwatch%3Fv%3D1"],
     inr (json_response 200 (JObj []))).
Proof.
  refine (info_success (Mock.always (Mock.reply 201 "{}")) Mock.parse
            [("url", "https://example.com/watch?v=1")]
            "https://example.com/watch?v=1" (Mock.reply 201 "{}") (JObj [])
            eq_refl _ eq_refl eq_refl eq_refl).
  discriminate.
Defined.

(** A [url] and a [q] that hold delimiters. *)
Lemma query_value_stays_in_its_place_witness :
  (exists value : string,
      outbound_calls
        (fst (info_GET (Mock.down NetworkError) Mock.parse
                [("url", "https://example.com/watch?v=1&t=2#top")]))
      = [(GET, BACKEND_URL ++ "/api/video/info?url=" ++ value)]
      /\ forall c, In c (list_ascii_of_string value) -> url_delimiter c = false)
  /\
  (exists value : string,
      outbound_calls
        (fst (search_GET (Mock.down NetworkError) Mock.parse
                [("q", "cats & dogs")]))
      = [(GET, BACKEND_URL ++ "/api/search?q=" ++ value ++ "&max_results=20")]
      /\ forall c, In c (list_ascii_of_string value) -> url_delimiter c = false).
Proof.
  split.
  - refine (proj1 (query_value_stays_in_its_place
                     (Mock.down NetworkError) Mock.parse
                     [("url", "https://example.com/watch?v=1&t=2#top")])
              "https://example.com/watch?v=1&t=2#top" eq_refl _).
    discriminate.
  - refine (proj2 (query_value_stays_in_its_place
                     (Mock.down NetworkError) Mock.parse
                     [("q", "cats & dogs")])
              "cats & dogs" eq_refl _).
    discriminate.
Defined.


(** [q=lo-fi beats&max_results=50] *)
Lemma search_unreserved_max_results_witness :
  outbound_calls
    (fst (search_GET (Mock.down NetworkError) Mock.parse
            [("q", "lo-fi beats"); ("max_results", "50")]))
  = [(GET, "http://localhost:8001/api/search?q=lo-fi%20beats&max_results=50")].
Proof.
  refine (search_unreserved_max_results (Mock.down NetworkError) Mock.parse
            [("q", "lo-fi beats"); ("max_results", "50")] "lo-fi beats" "50"
            eq_refl _ eq_refl _ eq_refl);
    discriminate.
Defined.

(** A backend answer with a cookie and a range header besides the
    content type. *)
Lemma stream_forwards_no_other_header_witness :
  exists resp : Response,
    snd (stream_GET
           (Mock.always
              (mkBackendResponse 206
                 [("content-type", "video/mp4"); ("set-cookie", "id=1");
                  ("content-range", "bytes 0-9/100")]
                 (Mock.utf8 "0123456789")))
           "clip.mp4") = inr resp
    /\ forall value : string, ~ In ("set-cookie", value) (resp_headers resp).
Proof.
  destruct (stream_forwards_no_other_header
              (Mock.always
                 (mkBackendResponse 206
                    [("content-type", "video/mp4"); ("set-cookie", "id=1");
                     ("content-range", "bytes 0-9/100")]
                    (Mock.utf8 "0123456789")))
              "clip.mp4"
              (mkBackendResponse 206
                 [("content-type", "video/mp4"); ("set-cookie", "id=1");
                  ("content-range", "bytes 0-9/100")]
                 (Mock.utf8 "0123456789"))
              eq_refl eq_refl) as (resp & Hrun & Hnames).
  exists resp. split; [exact Hrun|].
  intros value Hin.
  destruct (Hnames _ _ Hin) as [[H _]|[[H _]|[H _]]]; discriminate H.
Defined.

(** The info handler against a backend that answers 429 with [{}]. *)
Lemma handler_statuses_witness :
  let resp :=
    json_response 429 (error_object (JStr "Failed to get video info")) in
  resp_status resp = 200 \/ resp_status resp = 400 \/ resp_status resp = 500
  \/ exists (m : Method) (u : string) (r : BackendResponse),
       Mock.always (Mock.reply 429 "{}") m u = inr r /\ ok r = false
       /\ resp_status resp = status r
       /\ 300 <= status r <= 599 /\ status r <> 304.
Proof.
  exact (handler_statuses (Mock.always (Mock.reply 429 "{}")) Mock.parse
           VideoInfo
           (mkInbound [("url", "https://example.com/watch?v=1")] EmptyString)
           (json_response 429 (error_object (JStr "Failed to get video info")))
           eq_refl).
Defined.

(** Backend 422 whose [detail] is a list, as a validating backend sends. *)
Lemma info_relays_any_truthy_detail_witness :
  info_GET
    (Mock.always
       (Mock.reply 422 ("{" ++ dquote ++ "detail" ++ dquote ++ ":[]}")))
    (Mock.decoder
       [("{" ++ dquote ++ "detail" ++ dquote ++ ":[]}",
         JObj [("detail", JArr [])])])
    [("url", "https://example.com/watch?v=1")]
  = ([EvFetch GET
        "http://localhost:8001/api/video/info?url=https%3A%2F%2Fexample.com%2Fwatch%3Fv%3D1"],
     inr (json_response 422 (error_object (JArr [])))).
Proof.
  refine (info_relays_any_truthy_detail
            (Mock.always
               (Mock.reply 422 ("{" ++ dquote ++ "detail" ++ dquote ++ ":[]}")))
            (Mock.decoder
               [("{" ++ dquote ++ "detail" ++ dquote ++ ":[]}",
                 JObj [("detail", JArr [])])])
            [("url", "https://example.com/watch?v=1")]
            "https://example.com/watch?v=1"
            (Mock.reply 422 ("{" ++ dquote ++ "detail" ++ dquote ++ ":[]}"))
            (JObj [("detail", JArr [])]) (JArr [])
            eq_refl _ eq_refl eq_refl _ _ eq_refl eq_refl eq_refl);
    try discriminate; simpl; lia.
Defined.

(** Backend 502 with the body [null]. *)
Lemma info_null_error_body_witness :
  info_GET (Mock.always (Mock.reply 502 "null")) Mock.parse
    [("url", "https://example.com/watch?v=1")]
  = ([EvFetch GET
        "http://localhost:8001/api/video/info?url=https%3A%2F%2Fexample.com%2Fwatch%3Fv%3D1";
      EvLog "Video info API error:" TypeError],
     inr (generic_failure VideoInfo)).
Proof.
  refine (info_null_error_body (Mock.always (Mock.reply 502 "null")) Mock.parse
            [("url", "https://example.com/watch?v=1")]
            "https://example.com/watch?v=1" (Mock.reply 502 "null")
            eq_refl _ eq_refl eq_refl eq_refl).
  discriminate.
Defined.

(** Backend 304. *)
Lemma info_refused_status_witness :
  exists err : JsError,
    info_GET (Mock.always (Mock.reply 304 "{}")) Mock.parse
      [("url", "https://example.com/watch?v=1")]
    = ([EvFetch GET
          "http://localhost:8001/api/video/info?url=https%3A%2F%2Fexample.com%2Fwatch%3Fv%3D1";
        EvLog "Video info API error:" err],
       inr (generic_failure VideoInfo)).
Proof.
  refine (info_refused_status (Mock.always (Mock.reply 304 "{}")) Mock.parse
            [("url", "https://example.com/watch?v=1")]
            "https://example.com/watch?v=1" (Mock.reply 304 "{}")
            eq_refl _ eq_refl (or_intror (or_intror eq_refl))).
  discriminate.
Defined.
